(** * pyboreas: the sensor-frame transformation pipeline

    A shallow embedding of [python/vis/vis_utils.py] (pose resolver,
    geometry transformer, rotation algebra, timestamp aligner) and of
    [pyboreas/vis/vis_utils.py] (the bilinear resampler).

    Conventions of the embedding.
    - A Python exception is a value of [Py.exn]; a call that can raise
      returns [Py.res].
    - A 2-D numpy array is the list of its rows.  The arithmetic carried by
      an array is the class [Np.Scalar]: results that do not depend on the
      laws of the arithmetic are stated for every instance, and so hold for
      float64 as they do for the exact instances [Q] and [R] used to
      evaluate and to reason about angles.
    - numpy and scipy routines that the sources call but do not define
      (the random draw, the matrix inverse, the quaternion conversion) are
      parameters of the functions that call them; [Extern] gives the last
      two in exact arithmetic, to evaluate poses. *)

From Stdlib Require Import ZArith QArith Qround Qabs String Bool Lia List Permutation.
From Stdlib Require Import Lqa.
From Stdlib Require Import Reals Lra.
Import ListNotations.

Set Implicit Arguments.
Close Scope Q_scope.
Close Scope R_scope.

(** ** Python values, exceptions and the error monad *)

Module Py.

Inductive exn : Type :=
| ValueError
| IndexError
| LinAlgError
| Exception (msg : string).

Definition res (A : Type) : Type := (exn + A)%type.

Definition ret {A : Type} (a : A) : res A := inr a.
Definition raise {A : Type} (e : exn) : res A := inl e.

Definition bind {A B : Type} (m : res A) (k : A -> res B) : res B :=
  match m with
  | inl e => inl e
  | inr a => k a
  end.

(** A Python number: [0] is an int, [6.3e9] a float. *)
Inductive number : Type :=
| PyInt (z : Z)
| PyFloat (q : Q).

(** [int(q)]: truncation toward zero. *)
Definition int (q : Q) : Z := Z.quot (Qnum q) (Zpos (Qden q)).

(** [len(l)] *)
Definition len {A : Type} (l : list A) : Z := Z.of_nat (length l).

(** [for a in l: ...] over a fallible body, collecting the results. *)
Fixpoint mapM {A B : Type} (f : A -> res B) (l : list A) : res (list B) :=
  match l with
  | [] => ret []
  | a :: l' =>
      bind (f a) (fun b => bind (mapM f l') (fun bs => ret (b :: bs)))
  end.

End Py.

Declare Scope py_scope.
Delimit Scope py_scope with py.
Notation "x <- m ;; k" := (Py.bind m (fun x => k))
  (at level 61, m at next level, right associativity) : py_scope.
Notation "' pat <- m ;; k" := (Py.bind m (fun x => match x with pat => k end))
  (at level 61, pat pattern, m at next level, right associativity) : py_scope.

(** ** numpy arrays *)

Module Np.

Class Scalar (A : Type) : Type := {
  zero : A;
  one : A;
  add : A -> A -> A;
  mul : A -> A -> A;
  opp : A -> A
}.

#[export] Instance Scalar_Q : Scalar Q :=
  {| zero := 0%Q; one := 1%Q; add := Qplus; mul := Qmult; opp := Qopp |}.

#[export] Instance Scalar_R : Scalar R :=
  {| zero := 0%R; one := 1%R; add := Rplus; mul := Rmult; opp := Ropp |}.

Definition matrix (A : Type) : Type := list (list A).

Section Arrays.
Context {A : Type} `{Scalar A}.
Local Open Scope py_scope.

Definition nrows (M : matrix A) : nat := length M.

Definition ncols (M : matrix A) : nat :=
  match M with
  | [] => 0
  | r :: _ => length r
  end.

(** [shape M r c]: [M] is a rectangular [r] x [c] array. *)
Definition shape (M : matrix A) (r c : nat) : Prop :=
  length M = r /\ Forall (fun row => length row = c) M.

(** [np.ones(n)] *)
Definition ones (n : nat) : list A := repeat one n.

(** The accumulation [sum_k u[k] * v[k]] of a matrix product. *)
Definition dot (u v : list A) : A :=
  fold_left add (map (fun p => mul (fst p) (snd p)) (combine u v)) zero.

Definition col (j : nat) (M : matrix A) : list A :=
  map (fun row => nth j row zero) M.

(** [M.T] for an array of [w] columns; the width is explicit because an
    array without rows does not show it. *)
Definition transposeW (w : nat) (M : matrix A) : matrix A :=
  map (fun j => col j M) (seq 0 w).

Definition transpose (M : matrix A) : matrix A := transposeW (ncols M) M.

(** [np.matmul(M, N)]: the inner dimensions must agree. *)
Definition matmul (M N : matrix A) : Py.res (matrix A) :=
  if Nat.eqb (ncols M) (nrows N)
  then Py.ret (map (fun a => map (fun c => dot a c) (transpose N)) M)
  else Py.raise Py.ValueError.

(** [-M] *)
Definition neg (M : matrix A) : matrix A := map (map opp) M.

(** [np.vstack((M, v))] for a 1-D [v]. *)
Definition vstack (M : matrix A) (v : list A) : Py.res (matrix A) :=
  if Nat.eqb (ncols M) (length v)
  then Py.ret (M ++ [v])
  else Py.raise Py.ValueError.

(** [np.concatenate((M, N), axis=1)] *)
Definition concatenate1 (M N : matrix A) : Py.res (matrix A) :=
  if Nat.eqb (nrows M) (nrows N)
  then Py.ret (map (fun p => fst p ++ snd p) (combine M N))
  else Py.raise Py.ValueError.

(** [np.concatenate((M, N), axis=0)] *)
Definition concatenate0 (M N : matrix A) : Py.res (matrix A) :=
  if Nat.eqb (ncols M) (ncols N)
  then Py.ret (M ++ N)
  else Py.raise Py.ValueError.

(** [M[idx]] for an array [idx] of non-negative row indices. *)
Definition take_rows (M : matrix A) (idx : list nat) : Py.res (matrix A) :=
  Py.mapM (fun i => match nth_error M i with
                    | Some row => Py.ret row
                    | None => Py.raise Py.IndexError
                    end) idx.

(** [M[0:r, 0:c]] *)
Definition block (r c : nat) (M : matrix A) : matrix A :=
  map (firstn c) (firstn r M).

(** [a[i] = v] on a 1-D array. *)
Definition setitem (a : list A) (i : nat) (v : A) : Py.res (list A) :=
  if Nat.ltb i (length a)
  then Py.ret (firstn i a ++ v :: skipn (S i) a)
  else Py.raise Py.IndexError.

(** [a[i]] on a 1-D array, [i >= 0]. *)
Definition getitem (a : list A) (i : nat) : Py.res A :=
  match nth_error a i with
  | Some v => Py.ret v
  | None => Py.raise Py.IndexError
  end.

(** [M[i, j]] *)
Definition getitem2 (M : matrix A) (i j : nat) : Py.res A :=
  match nth_error M i with
  | Some row => getitem row j
  | None => Py.raise Py.IndexError
  end.

(** [np.roll(a, -1)]: every component moves one place to the left, the
    first one wraps to the end. *)
Definition roll_left (a : list A) : list A :=
  match a with
  | [] => []
  | h :: t => t ++ [h]
  end.

End Arrays.

End Np.

(** ** External routines, in exact arithmetic

    scipy's [Rotation.from_quat(q).as_matrix()] and numpy's [linalg.inv]
    are not part of the repository.  The functions of the pose resolver
    take them as parameters; the definitions below are their documented
    behaviour over [Q], used wherever a pose is evaluated. *)

Module Extern.
Import Np.
Local Open Scope py_scope.
Local Open Scope Q_scope.

(** scipy reads a quaternion scalar-last, [(x, y, z, w)], rejects a shape
    other than [(4,)] and a zero norm, normalises, and fills the matrix with
    the quadratic forms below.  Dividing each form by the squared norm is
    the normalisation in exact arithmetic. *)
Definition from_quat_as_matrix (quat : list Q) : Py.res (matrix Q) :=
  match quat with
  | [x; y; z; w] =>
      let n := x * x + y * y + z * z + w * w in
      if Qeq_bool n 0 then Py.raise Py.ValueError
      else Py.ret
        [[(x * x - y * y - z * z + w * w) / n; 2 * (x * y - z * w) / n; 2 * (x * z + y * w) / n];
         [2 * (x * y + z * w) / n; (- (x * x) + y * y - z * z + w * w) / n; 2 * (y * z - x * w) / n];
         [2 * (x * z - y * w) / n; 2 * (y * z + x * w) / n; (- (x * x) - y * y + z * z + w * w) / n]]
  | _ => Py.raise Py.ValueError
  end.

(** The first row with a non-zero entry in column [j], and the other rows. *)
Fixpoint find_pivot (j : nat) (rows : matrix Q) : option (list Q * matrix Q) :=
  match rows with
  | [] => None
  | r :: rest =>
      if Qeq_bool (nth j r 0) 0
      then match find_pivot j rest with
           | Some (p, others) => Some (p, r :: others)
           | None => None
           end
      else Some (r, rest)
  end.

(** Gauss-Jordan elimination on the rows of [M | I]: [done] holds the rows
    already reduced, in order; [todo] the rows without a pivot yet. *)
Fixpoint gauss_jordan (steps j : nat) (done todo : matrix Q) : option (matrix Q) :=
  match steps with
  | O => Some done
  | S steps' =>
      match find_pivot j todo with
      | None => None
      | Some (p, rest) =>
          let p' := map (fun a => Qred (a / nth j p 0)) p in
          let elim r := map (fun ab => Qred (fst ab - nth j r 0 * snd ab)) (combine r p') in
          gauss_jordan steps' (S j) (map elim done ++ [p']) (map elim rest)
      end
  end.

Definition identity (n : nat) : matrix Q :=
  map (fun i => map (fun j => if Nat.eqb i j then 1 else 0) (seq 0 n)) (seq 0 n).

(** [np.linalg.inv(M)]: the inverse of a square matrix, [LinAlgError] when
    it is not square or is singular. *)
Definition linalg_inv (M : matrix Q) : Py.res (matrix Q) :=
  let n := nrows M in
  if forallb (fun r => Nat.eqb (length r) n) M
  then match gauss_jordan n 0 [] (map (fun p => fst p ++ snd p) (combine M (identity n))) with
       | Some rows => Py.ret (map (skipn n) rows)
       | None => Py.raise Py.LinAlgError
       end
  else Py.raise Py.LinAlgError.

(** Entrywise equality of rational matrices. *)
Definition mat_eq (M N : matrix Q) : Prop := Forall2 (Forall2 Qeq) M N.

Definition mat_eqb (M N : matrix Q) : bool :=
  Nat.eqb (length M) (length N) &&
  forallb (fun p => Nat.eqb (length (fst p)) (length (snd p)) &&
                    forallb (fun ab => Qeq_bool (fst ab) (snd ab)) (combine (fst p) (snd p)))
          (combine M N).


(** [C . C^T = I], exactly. *)
Definition orthonormal (C : matrix Q) : Prop :=
  exists G, matmul C (transpose C) = Py.ret G /\ mat_eq G (identity 3).

(** The orthonormality check [C . C^T = I] on a 3x3 matrix, every entry
    within [tol]. *)
Definition orthonormal_within (tol : Q) (C : matrix Q) : bool :=
  match matmul C (transpose C) with
  | inr G =>
      Nat.eqb (length G) 3 &&
      forallb (fun p => Nat.eqb (length (fst p)) 3 &&
                 forallb (fun ab => Qle_bool (Qabs (fst ab - snd ab)) tol)
                         (combine (fst p) (snd p)))
              (combine G (identity 3))
  | inl _ => false
  end.

End Extern.

(** ** python/vis/vis_utils.py *)

Module VisUtils.
Import Np.
Local Open Scope py_scope.

(** *** Timestamp aligner *)

Definition get_dataset_offset_camera_ts (dataset : string) : Py.res Py.number :=
  if String.eqb dataset "scale" then Py.ret (Py.PyFloat (6300000000 # 1))
  else if String.eqb dataset "boreas" then Py.ret (Py.PyInt 0)
  else Py.raise (Py.Exception "Unknown dataset!").

(** *** Geometry transformer *)

(** A raw point record: the fields ['x'], ['y'] and ['z'] that the
    transformer reads. *)
Record raw_point (A : Type) : Type := { px : A; py : A; pz : A }.

Section TransformPoints.
Context {A : Type} `{Scalar A}.

(** [np.random.choice(n, size, replace=False)] with the generator in the
    state it has at the call. *)
Variable random_choice : nat -> Z -> Py.res (list nat).

Definition transform_points (T : matrix A) (raw_pcd : list (raw_point A))
           (keep_prob : Q) : Py.res (matrix A) :=
  let points := map (fun p => [px p; py p; pz p]) raw_pcd in
  idx <- random_choice (length raw_pcd)
                       (Py.int (keep_prob * inject_Z (Py.len raw_pcd))%Q) ;;
  points <- take_rows points idx ;;
  stacked <- vstack (transposeW 3 points) (ones (nrows points)) ;;
  points <- matmul T stacked ;;
  Py.ret (transpose points).

(** The row that the loop writes for one record, and the record of the
    origin. *)
Definition xyz (p : raw_point A) : list A := [px p; py p; pz p].

Definition origin : raw_point A := {| px := zero; py := zero; pz := zero |}.

(** [T . [p; 1]], the homogeneous product for one point, as a column
    read top to bottom. *)
Definition apply_T (T : matrix A) (p : raw_point A) : list A :=
  map (fun row => dot row [px p; py p; pz p; one]) T.

End TransformPoints.

(** What numpy documents for a draw without replacement: [size] distinct
    indices below [n], and a [ValueError] when [size] is negative or
    exceeds the population. *)
Definition choice_contract (random_choice : nat -> Z -> Py.res (list nat)) : Prop :=
  forall n size,
    ((0 <= size <= Z.of_nat n)%Z ->
     exists idx, random_choice n size = Py.ret idx /\
                 length idx = Z.to_nat size /\
                 NoDup idx /\
                 Forall (fun i => i < n) idx) /\
    (~ (0 <= size <= Z.of_nat n)%Z ->
     random_choice n size = Py.raise Py.ValueError).

(** Two generators that meet the contract: one draws the indices in
    ascending order, the other in descending order. *)
Definition draw_ascending (n : nat) (size : Z) : Py.res (list nat) :=
  if ((0 <=? size) && (size <=? Z.of_nat n))%Z
  then Py.ret (seq 0 (Z.to_nat size))
  else Py.raise Py.ValueError.


(** A cloud of two points. *)
Definition two_points : list (raw_point Q) :=
  [ {| px := 1; py := 2; pz := 3 |}; {| px := 4; py := 5; pz := 6 |} ]%Q.

(** An extrinsic that is not rigid: it doubles every length. *)
Definition T_iv_doubling : matrix Q :=
  [[2; 0; 0; 0]; [0; 2; 0; 0]; [0; 0; 2; 0]; [0; 0; 0; 1]]%Q.

(** The identity transform, and a cloud of [n] points along a line. *)
Definition T_identity : matrix Q :=
  [[1; 0; 0; 0]; [0; 1; 0; 0]; [0; 0; 1; 0]; [0; 0; 0; 1]]%Q.

Definition cloud (n : nat) : list (raw_point Q) :=
  map (fun i => {| px := inject_Z (Z.of_nat i); py := 0%Q; pz := 1%Q |}) (seq 0 n).

(** *** Pose resolver *)

Section PoseResolver.
Local Open Scope Q_scope.

(** [R.from_quat(q).as_matrix()] and [np.linalg.inv]. *)
Variable from_quat_as_matrix : list Q -> Py.res (matrix Q).
Variable linalg_inv : matrix Q -> Py.res (matrix Q).

Definition to_T (C r : matrix Q) : Py.res (matrix Q) :=
  T <- concatenate1 C r ;;
  T <- concatenate0 T [[0; 0; 0; 1]] ;;
  Py.ret T.

(** [a[i] = -a[i]] *)
Definition negate_item (a : list Q) (i : nat) : Py.res (list Q) :=
  v <- getitem a i ;;
  setitem a i (- v).

(** Lines 23-26: the heading as it is handed to the conversion. *)
Definition reorder_heading (raw_heading : list Q) : Py.res (list Q) :=
  let raw_heading := map Qopp (roll_left raw_heading) in
  raw_heading <- negate_item raw_heading 0 ;;
  raw_heading <- negate_item raw_heading 1 ;;
  raw_heading <- negate_item raw_heading 2 ;;
  Py.ret raw_heading.


(** Lines 33-43: the transform from IMU to Velodyne and its rotation. *)
Definition extrinsic (T_iv : option (matrix Q)) : Py.res (matrix Q * matrix Q) :=
  match T_iv with
  | None =>
      let C_iv := [[0; -1; 0]; [1; 0; 0]; [0; 0; 1]] in
      let C_vi := transpose C_iv in
      let r_vi := transpose [[0; 0; 45 # 100]] in
      m <- matmul C_vi r_vi ;;
      let r_iv := neg m in
      T_vi <- to_T C_vi r_iv ;;
      Py.ret (T_vi, C_vi)
  | Some T_iv =>
      T_vi <- linalg_inv T_iv ;;
      let C_vi := block 3 3 T_vi in
      Py.ret (T_vi, C_vi)
  end.

(** Lines 49-51.  [raw_heading_yaw] is another name for the array
    [raw_heading], which by then holds the reordered heading; the two
    assignments overwrite its components 0 and 1. *)
Definition yaw_heading (raw_heading : list Q) : Py.res (list Q) :=
  let raw_heading_yaw := raw_heading in
  raw_heading_yaw <- setitem raw_heading_yaw 0 0 ;;
  raw_heading_yaw <- setitem raw_heading_yaw 1 0 ;;
  Py.ret raw_heading_yaw.

Definition velodyne_frame_from_imu (raw_heading : list Q) (r_io : matrix Q)
           (T_iv : option (matrix Q)) : Py.res (matrix Q * matrix Q) :=
  raw_heading <- reorder_heading raw_heading ;;
  C_io <- from_quat_as_matrix raw_heading ;;
  m <- matmul C_io r_io ;;
  let r_oi := neg m in
  T_io <- concatenate1 C_io r_oi ;;
  T_io <- concatenate0 T_io [[0; 0; 0; 1]] ;;
  '(T_vi, C_vi) <- extrinsic T_iv ;;
  T_vo <- matmul T_vi T_io ;;
  raw_heading_yaw <- yaw_heading raw_heading ;;
  C_io_yaw <- from_quat_as_matrix raw_heading_yaw ;;
  C_vo_yaw <- matmul C_vi C_io_yaw ;;
  Py.ret (T_vo, C_vo_yaw).

(** [get_device_pose]: the heading and position are the values of the two
    mappings of the record, in their order. *)
Definition get_device_pose (device_heading device_position : list Q)
           (T_iv : option (matrix Q)) : Py.res (matrix Q * matrix Q) :=
  let raw_heading := device_heading in
  let r_io := transpose [device_position] in
  velodyne_frame_from_imu raw_heading r_io T_iv.

End PoseResolver.

(** *** Rotation algebra *)

Section RotationAlgebra.
Local Open Scope R_scope.

Definition rot_x (alpha : R) : matrix R :=
  [[1; 0; 0];
   [0; cos alpha; - sin alpha];
   [0; sin alpha; cos alpha]].

Definition rot_y (beta : R) : matrix R :=
  [[cos beta; 0; sin beta];
   [0; 1; 0];
   [- sin beta; 0; cos beta]].

Definition rot_z (gamma : R) : matrix R :=
  [[cos gamma; - sin gamma; 0];
   [sin gamma; cos gamma; 0];
   [0; 0; 1]].

(** [rot_z(yaw) . rot_y(pitch) . rot_x(roll)] *)
Definition rot_zyx (yaw pitch roll : R) : Py.res (matrix R) :=
  m <- matmul (rot_z yaw) (rot_y pitch) ;;
  matmul m (rot_x roll).

(** [np.arctan2(y, x)] on the reals: the angle of the point [(x, y)] in
    [(-PI, PI]], and [0] at the origin. *)
Definition arctan2 (y x : R) : R :=
  if Rlt_dec 0 x then atan (y / x)
  else if Rlt_dec x 0 then
         if Rle_dec 0 y then atan (y / x) + PI else atan (y / x) - PI
  else if Rlt_dec 0 y then PI / 2
  else if Rlt_dec y 0 then - (PI / 2)
  else 0.

(** The default [eps=1e-15]. *)
Definition eps_default : R := / 10 ^ 15.

(** [c_y = np.sqrt(C[i, i] ** 2 + C[j, i] ** 2)] with [i = 2], [j = 1]. *)
Definition c_y_of (C : matrix R) : Py.res R :=
  let i := 2%nat in
  let j := 1%nat in
  Cii <- getitem2 C i i ;;
  Cji <- getitem2 C j i ;;
  Py.ret (sqrt (Cii ^ 2 + Cji ^ 2)).

Definition rot_to_yaw_pitch_roll (C : matrix R) (eps : R) : Py.res (R * R * R) :=
  let i := 2%nat in
  let j := 1%nat in
  let k := 0%nat in
  c_y <- c_y_of C ;;
  if Rlt_dec eps c_y then
    Cji <- getitem2 C j i ;;
    Cii <- getitem2 C i i ;;
    let roll := arctan2 Cji Cii in
    Cki <- getitem2 C k i ;;
    let pitch := arctan2 (- Cki) c_y in
    Ckj <- getitem2 C k j ;;
    Ckk <- getitem2 C k k ;;
    let yaw := arctan2 Ckj Ckk in
    Py.ret (yaw, pitch, roll)
  else
    let roll := 0 in
    Cki <- getitem2 C k i ;;
    let pitch := arctan2 (- Cki) c_y in
    Cjk <- getitem2 C j k ;;
    Cjj <- getitem2 C j j ;;
    let yaw := arctan2 (- Cjk) Cjj in
    Py.ret (yaw, pitch, roll).

End RotationAlgebra.

End VisUtils.

(** The pose resolver over the exact routines. *)
Definition velodyne_frame_from_imu_exact :
  list Q -> (Np.matrix Q) -> option (Np.matrix Q) -> Py.res ((Np.matrix Q) * (Np.matrix Q)) :=
  VisUtils.velodyne_frame_from_imu Extern.from_quat_as_matrix Extern.linalg_inv.

(** ** pyboreas/vis/vis_utils.py: the bilinear resampler *)

Module Resampler.
Local Open Scope py_scope.

(** The image is rows x cols x channels (the source notes the gathered
    samples as [N x 3]): a sample is the list of its channel values, and the
    [(N, 1)]-shaped weights scale every channel of the sample of their
    query.  The [N] queries are the lists [X] and [Y]; [squeeze] only drops
    axes of length one and is not modelled. *)
Definition pixel : Type := list Q.
Definition image : Type := list (list pixel).

Definition rows (img : image) : nat := length img.
Definition cols (img : image) : nat :=
  match img with
  | [] => 0
  | r :: _ => length r
  end.

(** [img] is a rectangular [r] x [c] grid. *)
Definition grid (img : image) (r c : nat) : Prop :=
  length img = r /\ Forall (fun row => length row = c) img.

(** [.astype(np.int32)]: the value modulo [2^32], read as signed. *)
Definition int32 (z : Z) : Z := ((z + 2 ^ 31) mod 2 ^ 32 - 2 ^ 31)%Z.

(** An index into an axis of length [n]: a negative index counts from the
    end, an index outside [-n .. n-1] raises. *)
Definition index (n : nat) (i : Z) : Py.res nat :=
  if ((0 <=? i) && (i <? Z.of_nat n))%Z then Py.ret (Z.to_nat i)
  else if ((- Z.of_nat n <=? i) && (i <? 0))%Z then Py.ret (Z.to_nat (i + Z.of_nat n))
  else Py.raise Py.IndexError.

(** [img[y, x]] for one pair of integers. *)
Definition sample (img : image) (y x : Z) : Py.res pixel :=
  r <- index (rows img) y ;;
  c <- index (cols img) x ;;
  Py.ret (nth c (nth r img []) []).

Definition zipWith {A B C : Type} (f : A -> B -> C) (a : list A) (b : list B) : list C :=
  map (fun p => f (fst p) (snd p)) (combine a b).

(** [img[ys, xs]] for two index arrays of one shape. *)
Definition gather (img : image) (ys xs : list Z) : Py.res (list pixel) :=
  if Nat.eqb (length ys) (length xs)
  then Py.mapM (fun p => sample img (fst p) (snd p)) (combine ys xs)
  else Py.raise Py.IndexError.

(** [q * w] and [w * f] for samples [q], [f] and weights [w], both of [N]
    rows; [f + g]. *)
Definition times_r (q : list pixel) (w : list Q) : list pixel :=
  zipWith (fun p wn => map (fun v => v * wn)%Q p) q w.

Definition times_l (w : list Q) (f : list pixel) : list pixel :=
  zipWith (fun wn p => map (fun v => wn * v)%Q p) w f.

Definition plus (f g : list pixel) : list pixel :=
  zipWith (fun p q => zipWith Qplus p q) f g.

(** [f[mask] = v[mask]], with [mask] the rows where the comparison holds. *)
Definition assign_where (mask : list bool) (f v : list pixel) : list pixel :=
  zipWith (fun m fv => if (m : bool) then snd fv else fst fv) mask (combine f v).

Definition EPS : Q := 1 # 100000000000000.

Definition bilinear_interp (img : image) (X Y : list Q) : Py.res (list pixel) :=
  let x := X in
  let y := Y in

  let x1 := map (fun v => int32 (Qfloor v)) x in
  let x2 := map (fun v => int32 (Qceiling v)) x in
  let y1 := map (fun v => int32 (Qfloor v)) y in
  let y2 := map (fun v => int32 (Qceiling v)) y in

  let mask := zipWith Z.eqb x1 x2 in

  q11 <- gather img y1 x1 ;;
  q12 <- gather img y2 x1 ;;
  q21 <- gather img y1 x2 ;;
  q22 <- gather img y2 x2 ;;

  let x_21 := zipWith (fun a b => inject_Z (int32 (a - b)) + EPS)%Q x2 x1 in
  let x_2 := zipWith Qdiv (zipWith (fun a v => inject_Z a - v)%Q x2 x) x_21 in
  let x_1 := zipWith Qdiv (zipWith (fun v a => v - inject_Z a)%Q x x1) x_21 in

  let f_y1 := plus (times_r q11 x_2) (times_r q21 x_1) in
  let f_y2 := plus (times_r q12 x_2) (times_r q22 x_1) in

  let f_y1 := assign_where mask f_y1 q11 in
  let f_y2 := assign_where mask f_y2 q22 in

  let mask := zipWith Z.eqb y1 y2 in

  let y_21 := zipWith (fun a b => inject_Z (int32 (a - b)) + EPS)%Q y2 y1 in
  let y_2 := zipWith Qdiv (zipWith (fun a v => inject_Z a - v)%Q y2 y) y_21 in
  let y_1 := zipWith Qdiv (zipWith (fun v a => v - inject_Z a)%Q y y1) y_21 in

  let f := plus (times_l y_2 f_y1) (times_l y_1 f_y2) in
  let f := assign_where mask f f_y1 in

  Py.ret f.


(** A 2 x 2 image with the corner values 10, 20, 30, 40, one channel. *)
Definition img_corners : image :=
  [[[10]; [20]]; [[30]; [40]]]%Q.

(** A 2 x 3 image with one channel. *)
Definition img_2x3 : image :=
  [[[10]; [20]; [30]]; [[40]; [50]; [60]]]%Q.

End Resampler.


(** ** Bounding boxes and the orchestration

    [transform_bounding_boxes] is lines 104-124 of
    [python/vis/vis_utils.py] and, with the same body, lines 18-38 of
    [pyboreas/vis/vis_utils.py]; [transform_data_to_sensor_frame] is lines
    126-149 of the former. *)

Module SensorFrame.
Import Np.
Local Open Scope py_scope.

(** A raw label record: the values of ['position'] and of ['dimensions'] in
    their order, ['yaw'] and ['label']. *)
Record raw_label (A : Type) : Type := {
  position : list A;
  dimensions : list A;
  yaw : A;
  label : string
}.

(** [a.reshape(3, 1)] on a 1-D array: exactly three values are needed. *)
Definition reshape_3_1 {A : Type} (a : list A) : Py.res (matrix A) :=
  match a with
  | [x; y; z] => Py.ret [[x]; [y]; [z]]
  | _ => Py.raise Py.ValueError
  end.

Section BoundingBoxes.
Context {A : Type} `{Scalar A}.

(** The class [BoundingBox2D] is imported; its constructor is a parameter. *)
Variable Box : Type.
Variable BoundingBox2D : matrix A -> matrix A -> matrix A -> string -> Box.

(** The yaw rotation and the decomposition: [rot_z] and
    [rot_to_yaw_pitch_roll] of [python/vis/vis_utils.py], the imported [yaw]
    and [rotToYawPitchRoll] in [pyboreas/vis/vis_utils.py], at the arithmetic
    of the arrays. *)
Variable rot_z : A -> matrix A.
Variable rot_to_yaw_pitch_roll : matrix A -> Py.res (A * A * A).

(** The body of the loop for one label. *)
Definition transform_label (T C_yaw : matrix A) (raw_label_i : raw_label A) : Py.res Box :=
  let bbox_raw_pos := position raw_label_i ++ [one] in
  m <- matmul T (transpose [bbox_raw_pos]) ;;
  let pos := firstn 3 m in
  rotation <- matmul C_yaw (rot_z (yaw raw_label_i)) ;;
  _ <- rot_to_yaw_pitch_roll rotation ;;
  extent <- reshape_3_1 (dimensions raw_label_i) ;;
  let box := BoundingBox2D pos rotation extent (label raw_label_i) in
  Py.ret box.

Definition transform_bounding_boxes (T C_yaw : matrix A)
           (raw_labels : list (raw_label A)) : Py.res (list Box) :=
  Py.mapM (transform_label T C_yaw) raw_labels.

End BoundingBoxes.

(** [transform_bounding_boxes] of [python/vis/vis_utils.py] on real arrays,
    with the rotation algebra of that file. *)
Definition transform_bounding_boxes_vis (Box : Type)
           (BoundingBox2D : matrix R -> matrix R -> matrix R -> string -> Box) :
  matrix R -> matrix R -> list (raw_label R) -> Py.res (list Box) :=
  transform_bounding_boxes BoundingBox2D VisUtils.rot_z
    (fun C => VisUtils.rot_to_yaw_pitch_roll C VisUtils.eps_default).


Section Orchestration.
Variable from_quat_as_matrix : list Q -> Py.res (matrix Q).
Variable linalg_inv : matrix Q -> Py.res (matrix Q).
Variable random_choice : nat -> Z -> Py.res (list nat).
Variable Box : Type.
Variable BoundingBox2D : matrix Q -> matrix Q -> matrix Q -> string -> Box.
Variable rot_z : Q -> matrix Q.
Variable rot_to_yaw_pitch_roll : matrix Q -> Py.res (Q * Q * Q).


End Orchestration.

(** The 3x3 determinant. *)
Definition det3 (C : matrix R) : R :=
  match C with
  | [[a; b; c]; [d; e; f]; [g; h; i]] =>
      (a * (e * i - f * h) - b * (d * i - f * g) + c * (d * h - e * g))%R
  | _ => 0%R
  end.

Definition identity3 : matrix R := [[1; 0; 0]; [0; 1; 0]; [0; 0; 1]]%R.

(** Two labels, the second with a dimension missing. *)
Definition label_car : raw_label R :=
  {| position := [1; 2; 3]%R; dimensions := [4; 2; 1]%R; yaw := 0%R; label := "car" |}.

Definition label_short : raw_label R :=
  {| position := [1; 2; 3]%R; dimensions := [4; 2]%R; yaw := 0%R; label := "bad" |}.

Definition T_identity_real : matrix R :=
  [[1; 0; 0; 0]; [0; 1; 0; 0]; [0; 0; 1; 0]; [0; 0; 0; 1]]%R.

(** A box as the tuple of the arguments of its constructor, to evaluate. *)
Definition box_tuple {A : Type} (pos rotation extent : matrix A) (name : string) :
  matrix A * matrix A * matrix A * string := (pos, rotation, extent, name).

Definition C_yaw_two_rows : matrix R := [[1; 0; 0]; [0; 1; 0]]%R.


End SensorFrame.

(** ** python/boreas.py *)

Module Boreas.

(** The two exceptions of the class: a missing key of [seqDict] and a list
    index out of range. *)
Inductive error : Type :=
| KeyError (key : string)
| IndexError.

Definition res (A : Type) : Type := (error + A)%type.

(** A [dict] with string keys: the items in insertion order. *)
Definition dict (V : Type) : Type := list (string * V).

(** [d[k] = v]: the value of an existing key is replaced in place, a new
    key goes to the end. *)
Fixpoint dict_set {V : Type} (d : dict V) (k : string) (v : V) : dict V :=
  match d with
  | [] => [(k, v)]
  | (k', v') :: d' =>
      if String.eqb k' k then (k', v) :: d' else (k', v') :: dict_set d' k v
  end.

(** [d[k]] *)
Fixpoint dict_get {V : Type} (d : dict V) (k : string) : res V :=
  match d with
  | [] => inl (KeyError k)
  | (k', v') :: d' => if String.eqb k' k then inr v' else dict_get d' k
  end.

(** [l[idx]] on a list: a negative index counts from the end. *)
Definition list_getitem {V : Type} (l : list V) (idx : Z) : res V :=
  let n := Z.of_nat (length l) in
  let i := if (idx <? 0)%Z then (idx + n)%Z else idx in
  if ((0 <=? i) && (i <? n))%Z
  then match nth_error l (Z.to_nat i) with
       | Some v => inr v
       | None => inl IndexError
       end
  else inl IndexError.

Section Dataset.

(** The imported classes: [Sequence] with the attributes the dataset reads,
    the sensor classes and the visualizer, by their constructors. *)
Variables SeqSpec Seq CameraT LidarT RadarT VisualizerT : Type.
Variable Sequence : string -> SeqSpec -> Seq.
Variable seqID : Seq -> string.
Variable camera_paths lidar_paths radar_paths : Seq -> list string.
Variable Camera : string -> CameraT.
Variable Lidar : string -> LidarT.
Variable Radar : string -> RadarT.
Variable BoreasVisualizer : Seq -> VisualizerT.

Record BoreasDataset : Type := {
  root : string;
  split : list SeqSpec;
  cameraFrames : list string;
  lidarFrames : list string;
  radarFrames : list string;
  sequences : list Seq;
  seqDict : dict nat
}.

(** One turn of the loop of [__init__]. *)
Definition add_sequence (self : BoreasDataset) (seqSpec : SeqSpec) : BoreasDataset :=
  let seq := Sequence (root self) seqSpec in
  let sequences' := sequences self ++ [seq] in
  {| root := root self;
     split := split self;
     cameraFrames := cameraFrames self ++ camera_paths seq;
     lidarFrames := lidarFrames self ++ lidar_paths seq;
     radarFrames := radarFrames self ++ radar_paths seq;
     sequences := sequences';
     seqDict := dict_set (seqDict self) (seqID seq) (length sequences' - 1) |}.

(** [BoreasDataset(root, split)] *)
Definition init (root0 : string) (split0 : list SeqSpec) : BoreasDataset :=
  fold_left add_sequence split0
    {| root := root0; split := split0;
       cameraFrames := []; lidarFrames := []; radarFrames := [];
       sequences := []; seqDict := [] |}.

Definition get_seq_from_ID (self : BoreasDataset) (seqID0 : string) : res Seq :=
  match dict_get (seqDict self) seqID0 with
  | inl e => inl e
  | inr i => list_getitem (sequences self) (Z.of_nat i)
  end.

(** The generators [cam0], [lidar], [radar], as the lists of what they
    yield. *)
Definition cam0 (self : BoreasDataset) : list CameraT := map Camera (cameraFrames self).
Definition lidar (self : BoreasDataset) : list LidarT := map Lidar (lidarFrames self).
Definition radar (self : BoreasDataset) : list RadarT := map Radar (radarFrames self).

Definition get_camera (self : BoreasDataset) (idx : Z) : res CameraT :=
  match list_getitem (cameraFrames self) idx with
  | inl e => inl e
  | inr f => inr (Camera f)
  end.

Definition get_lidar (self : BoreasDataset) (idx : Z) : res LidarT :=
  match list_getitem (lidarFrames self) idx with
  | inl e => inl e
  | inr f => inr (Lidar f)
  end.

Definition get_radar (self : BoreasDataset) (idx : Z) : res RadarT :=
  match list_getitem (radarFrames self) idx with
  | inl e => inl e
  | inr f => inr (Radar f)
  end.

Definition get_sequence_visualizer (self : BoreasDataset) (seqID0 : string) : res VisualizerT :=
  match get_seq_from_ID self seqID0 with
  | inl e => inl e
  | inr seq => inr (BoreasVisualizer seq)
  end.

End Dataset.

(** A sequence as the record of the attributes read, to evaluate. *)
Record seq_record : Type := {
  sr_id : string;
  sr_camera : list string;
  sr_lidar : list string;
  sr_radar : list string
}.

(** Three sequences, the third with the ID of the first, and the dataset
    of them. *)
Definition seq_a : seq_record :=
  {| sr_id := "a"; sr_camera := ["a/c0"%string; "a/c1"%string]; sr_lidar := ["a/l0"%string]; sr_radar := [] |}.

Definition seq_b : seq_record :=
  {| sr_id := "b"; sr_camera := ["b/c0"%string]; sr_lidar := ["b/l0"%string; "b/l1"%string]; sr_radar := ["b/r0"%string] |}.

Definition seq_a2 : seq_record :=
  {| sr_id := "a"; sr_camera := ["a2/c0"%string]; sr_lidar := []; sr_radar := ["a2/r0"%string] |}.

Definition record_dataset (root0 : string) (split0 : list seq_record) :
  BoreasDataset seq_record seq_record :=
  init (fun _ spec => spec) sr_id sr_camera sr_lidar sr_radar root0 split0.

End Boreas.

(** * Properties *)

Import Np.
Local Open Scope py_scope.

(** ** Lists and arrays *)

Section ArrayFacts.
Context {A : Type} `{Scalar A}.

Lemma map_seq_nth_error {B C : Type} (F : nat -> C) (g : B -> C) (l : list B) :
  (forall j b, nth_error l j = Some b -> F j = g b) ->
  map F (seq 0 (length l)) = map g l.
Proof.
  revert F; induction l as [|b l IH]; intros F HF; simpl; [reflexivity|].
  rewrite (HF 0%nat b eq_refl), <- seq_shift, map_map.
  f_equal; apply IH; intros j c Hj; apply (HF (S j)); exact Hj.
Qed.

Lemma nth_map_some {B C : Type} (f : B -> C) (l : list B) j b d :
  nth_error l j = Some b -> nth j (map f l) d = f b.
Proof.
  intros Hj; apply nth_error_nth; rewrite nth_error_map, Hj; reflexivity.
Qed.

Lemma nth_ones_lt j n : (j < n)%nat -> nth j (ones n) zero = one.
Proof.
  intros Hj; unfold ones.
  rewrite (nth_indep _ zero one) by (rewrite repeat_length; exact Hj).
  apply nth_repeat.
Qed.

Lemma take_rows_in_range (M : matrix A) (idx : list nat) :
  Forall (fun i => (i < length M)%nat) idx ->
  take_rows M idx = Py.ret (map (fun i => nth i M []) idx).
Proof.
  unfold take_rows; induction 1 as [|i idx Hi _ IH]; simpl; [reflexivity|].
  rewrite IH; destruct (nth_error M i) as [row|] eqn:E.
  - simpl; rewrite (nth_error_nth _ _ _ E); reflexivity.
  - apply nth_error_None in E; lia.
Qed.

Lemma transposeW_outer {B : Type} (f : B -> list A -> A) (Hs : list (list A)) (T : list B) :
  transposeW (length Hs) (map (fun a => map (f a) Hs) T)
  = map (fun h => map (fun a => f a h) T) Hs.
Proof.
  unfold transposeW, col; apply map_seq_nth_error; intros j h Hj.
  rewrite map_map; apply map_ext; intros a.
  apply nth_map_some; exact Hj.
Qed.

End ArrayFacts.

(** ** Geometry transformer: [transform_points] *)

Section TransformPointsFacts.
Import VisUtils.
Context {A : Type} `{Scalar A}.

(** The stacked array [vstack((points.T, ones))], read column by column, is
    the list of the homogeneous points. *)
Lemma stacked_columns (pts : list (raw_point A)) :
  transpose (transposeW 3 (map xyz pts) ++ [ones (length pts)])
  = map (fun p => [px p; py p; pz p; one]) pts.
Proof.
  unfold transpose.
  replace (ncols (transposeW 3 (map xyz pts) ++ [ones (length pts)])) with (length pts)
    by (simpl; unfold col; rewrite !length_map; reflexivity).
  unfold transposeW at 1; apply map_seq_nth_error; intros j p Hj.
  assert (Hlt : (j < length pts)%nat) by (apply nth_error_Some; congruence).
  unfold col, transposeW; simpl; unfold col.
  rewrite !map_map; simpl.
  rewrite !(nth_map_some _ _ _ _ Hj), (nth_ones_lt Hlt); reflexivity.
Qed.

(** The value of [transform_points] once the draw is known. *)
Lemma transform_points_of_draw (choice : nat -> Z -> Py.res (list nat))
      (T : matrix A) (raw_pcd : list (raw_point A)) (keep_prob : Q) (idx : list nat) :
  choice (length raw_pcd) (Py.int (keep_prob * inject_Z (Py.len raw_pcd))%Q) = Py.ret idx ->
  Forall (fun i => (i < length raw_pcd)%nat) idx ->
  ncols T = 4%nat ->
  transform_points choice T raw_pcd keep_prob
  = Py.ret (map (fun i => apply_T T (nth i raw_pcd origin)) idx).
Proof.
  intros Hdraw Hidx HT; unfold transform_points.
  rewrite Hdraw; simpl.
  rewrite take_rows_in_range by (rewrite length_map; exact Hidx); simpl.
  set (sel := map (fun i => nth i raw_pcd origin) idx).
  assert (Hsel : map (fun i => nth i (map (fun p => [px p; py p; pz p]) raw_pcd) []) idx
                 = map xyz sel).
  { unfold sel; rewrite map_map; apply map_ext_in; intros i Hi.
    rewrite Forall_forall in Hidx; specialize (Hidx i Hi).
    destruct (nth_error raw_pcd i) as [p|] eqn:E.
    - rewrite (nth_map_some _ _ _ _ E), (nth_error_nth _ _ _ E); reflexivity.
    - apply nth_error_None in E; lia. }
  rewrite Hsel; unfold vstack, nrows.
  assert (Hn : length (map xyz sel) = length sel) by apply length_map.
  rewrite Hn.
  replace (ncols (transposeW 3 (map xyz sel))) with (length sel)
    by (simpl; unfold col; rewrite !length_map; reflexivity).
  unfold ones at 1; rewrite repeat_length, Nat.eqb_refl; simpl.
  unfold matmul, nrows.
  change [col 0 (map xyz sel); col 1 (map xyz sel); col 2 (map xyz sel); ones (length sel)]
    with (transposeW 3 (map xyz sel) ++ [ones (length sel)]).
  rewrite stacked_columns, length_app; simpl Datatypes.length.
  rewrite HT; simpl.
  set (Hs := map (fun p => [px p; py p; pz p; one]) sel).
  unfold transpose.
  assert (Hc : ncols (map (fun a => map (fun c => dot a c) Hs) T) = length Hs).
  { destruct T as [|r T']; [discriminate HT|]; simpl; apply length_map. }
  rewrite Hc, transposeW_outer; unfold Hs, sel; rewrite !map_map; reflexivity.
Qed.

End TransformPointsFacts.

Lemma draw_ascending_contract : VisUtils.choice_contract VisUtils.draw_ascending.
Proof.
  intros n size; unfold VisUtils.draw_ascending; split; intros Hs.
  - replace ((0 <=? size) && (size <=? Z.of_nat n))%Z with true
      by (symmetry; apply andb_true_intro; split; [apply Z.leb_le | apply Z.leb_le]; lia).
    exists (seq 0 (Z.to_nat size)); repeat split.
    + apply length_seq.
    + apply seq_NoDup.
    + apply Forall_forall; intros i Hi; apply in_seq in Hi; lia.
  - destruct ((0 <=? size) && (size <=? Z.of_nat n))%Z eqn:E; [|reflexivity].
    apply andb_prop in E; destruct E as [E1 E2].
    apply Z.leb_le in E1; apply Z.leb_le in E2; lia.
Qed.




Section TransformPointsClaims.
Import VisUtils.
Context {A : Type} `{Scalar A}.


(** C8.  With [keep_prob = 0.5] and 100 input points, whatever the draw,
    [transform_points] returns exactly 50 rows; they come from 50 distinct
    indices of the input, and each row is [T . [p; 1]] for the point [p] at
    its index. *)
Theorem transform_points_keep_half
        (choice : nat -> Z -> Py.res (list nat)) (T : matrix A)
        (raw_pcd : list (raw_point A)) :
  choice_contract choice ->
  shape T 4 4 ->
  length raw_pcd = 100%nat ->
  exists idx rows,
    transform_points choice T raw_pcd (1 # 2)%Q = Py.ret rows /\
    length rows = 50%nat /\
    length idx = 50%nat /\
    NoDup idx /\
    Forall (fun i => (i < 100)%nat) idx /\
    rows = map (fun i => apply_T T (nth i raw_pcd origin)) idx.
Proof.
  intros Hc [HT1 HT2] HN.
  assert (Hsize : Py.int ((1 # 2) * inject_Z (Py.len raw_pcd))%Q = 50%Z)
    by (unfold Py.len; rewrite HN; reflexivity).
  destruct (Hc (length raw_pcd) 50%Z) as [Hok _].
  destruct Hok as (idx & Hdraw & Hlen & Hnd & Hlt); [lia|].
  exists idx, (map (fun i => apply_T T (nth i raw_pcd origin)) idx).
  repeat split.
  - apply transform_points_of_draw; try assumption.
    + rewrite Hsize; exact Hdraw.
    + destruct T as [|r T']; [discriminate HT1|].
      inversion HT2; subst; simpl; assumption.
  - rewrite length_map; exact Hlen.
  - exact Hlen.
  - exact Hnd.
  - rewrite <- HN; exact Hlt.
Qed.

End TransformPointsClaims.

Lemma T_identity_shape : shape VisUtils.T_identity 4 4.
Proof. split; [reflexivity | repeat constructor]. Qed.


Lemma transform_points_keep_half_witness :
  exists idx rows,
    VisUtils.transform_points VisUtils.draw_ascending VisUtils.T_identity
                              (VisUtils.cloud 100) (1 # 2)%Q = Py.ret rows /\
    length rows = 50%nat /\
    length idx = 50%nat /\
    NoDup idx /\
    Forall (fun i => (i < 100)%nat) idx /\
    rows = map (fun i => VisUtils.apply_T VisUtils.T_identity
                           (nth i (VisUtils.cloud 100) VisUtils.origin)) idx.
Proof.
  apply (@transform_points_keep_half Q _ _ _ (VisUtils.cloud 100)
           draw_ascending_contract T_identity_shape).
  reflexivity.
Defined.


(** ** Timestamp aligner *)

(** C9.  [get_dataset_offset_camera_ts] returns [0] for ["boreas"],
    [6.3e9] for ["scale"], and raises for every other string. *)
Theorem get_dataset_offset_camera_ts_cases :
  VisUtils.get_dataset_offset_camera_ts "boreas" = Py.ret (Py.PyInt 0) /\
  VisUtils.get_dataset_offset_camera_ts "scale" = Py.ret (Py.PyFloat (6300000000 # 1)) /\
  forall dataset : string,
    dataset <> "boreas"%string -> dataset <> "scale"%string ->
    VisUtils.get_dataset_offset_camera_ts dataset
    = Py.raise (Py.Exception "Unknown dataset!").
Proof.
  split; [reflexivity|]; split; [reflexivity|].
  intros dataset Hb Hs; unfold VisUtils.get_dataset_offset_camera_ts.
  destruct (String.eqb_spec dataset "scale") as [E|_]; [contradiction|].
  destruct (String.eqb_spec dataset "boreas") as [E|_]; [contradiction|].
  reflexivity.
Qed.

Lemma get_dataset_offset_camera_ts_cases_witness :
  VisUtils.get_dataset_offset_camera_ts "kitti"
  = Py.raise (Py.Exception "Unknown dataset!").
Proof.
  apply (proj2 (proj2 get_dataset_offset_camera_ts_cases) "kitti"%string);
    discriminate.
Defined.

(** ** Pose resolver *)

Lemma bind_ret_inv {A B : Type} (m : Py.res A) (k : A -> Py.res B) (b : B) :
  Py.bind m k = Py.ret b -> exists a, m = Py.ret a /\ k a = Py.ret b.
Proof.
  destruct m as [e|a]; simpl; intros Hb; [discriminate|].
  exists a; split; [reflexivity | exact Hb].
Qed.

Ltac bind_inv H a Ha :=
  apply bind_ret_inv in H; destruct H as (a & Ha & H).

Lemma Qopp_opp_eq (q : Q) : Qopp (Qopp q) = q.
Proof. destruct q as [n d]; unfold Qopp; simpl; rewrite Z.opp_involutive; reflexivity. Qed.

Lemma reorder_heading_value (q0 q1 q2 q3 : Q) :
  VisUtils.reorder_heading [q0; q1; q2; q3] = Py.ret [q1; q2; q3; Qopp q0].
Proof.
  unfold VisUtils.reorder_heading, VisUtils.negate_item; simpl.
  rewrite !Qopp_opp_eq; reflexivity.
Qed.

Lemma yaw_heading_value (a b c d : Q) :
  VisUtils.yaw_heading [a; b; c; d] = Py.ret [0%Q; 0%Q; c; d].
Proof. reflexivity. Qed.

Section PoseResolverClaims.
Import VisUtils.
Local Open Scope Q_scope.

Variable from_quat_as_matrix : list Q -> Py.res (matrix Q).
Variable linalg_inv : matrix Q -> Py.res (matrix Q).

(** C2 (as amended).  The yaw-only rotation that [velodyne_frame_from_imu]
    returns for the heading [(q0, q1, q2, q3)] is the conversion of the
    reordered heading [(q1, q2, q3, -q0)] with its components 0 and 1 set to
    zero, that is of [(0, 0, q3, -q0)], premultiplied by the extrinsic
    rotation [C_vi] alone: the transpose of the default [C_iv], or the upper
    left 3x3 block of the inverse of the supplied [T_iv]. *)
Theorem velodyne_frame_from_imu_yaw
        (q0 q1 q2 q3 : Q) (r_io : matrix Q) (T_iv : option (matrix Q))
        (T_vo C_vo_yaw : matrix Q) :
  velodyne_frame_from_imu from_quat_as_matrix linalg_inv [q0; q1; q2; q3] r_io T_iv
  = Py.ret (T_vo, C_vo_yaw) ->
  exists C_vi C_io_yaw,
    from_quat_as_matrix [0; 0; q3; - q0] = Py.ret C_io_yaw /\
    matmul C_vi C_io_yaw = Py.ret C_vo_yaw /\
    match T_iv with
    | None => C_vi = transpose [[0; -1; 0]; [1; 0; 0]; [0; 0; 1]]
    | Some M => exists T_vi, linalg_inv M = Py.ret T_vi /\ C_vi = block 3 3 T_vi
    end.
Proof.
  unfold velodyne_frame_from_imu; rewrite reorder_heading_value; simpl Py.bind.
  intros Hr.
  bind_inv Hr C_io HC_io. bind_inv Hr m Hm.
  bind_inv Hr T_io1 HT1. bind_inv Hr T_io HT2.
  bind_inv Hr ext Hext. destruct ext as [T_vi C_vi].
  bind_inv Hr T_vo' HTvo.
  bind_inv Hr C_io_yaw Hyaw. bind_inv Hr C' HC'.
  injection Hr as -> ->.
  exists C_vi, C_io_yaw; split; [exact Hyaw|]; split; [exact HC'|].
  destruct T_iv as [M|]; unfold extrinsic in Hext.
  - bind_inv Hext Tinv Hinv. injection Hext as <- <-.
    exists Tinv; split; [exact Hinv | reflexivity].
  - bind_inv Hext m' Hm'. bind_inv Hext T' HT'.
    injection Hext as _ <-; reflexivity.
Qed.

End PoseResolverClaims.


Lemma velodyne_frame_from_imu_yaw_witness :
  exists C_vi C_io_yaw,
    Extern.from_quat_as_matrix [0; 0; 0; - (1)]%Q = Py.ret C_io_yaw /\
    matmul C_vi C_io_yaw = Py.ret [[0; 1; 0]; [-1 # 1; 0; 0]; [0; 0; 1]]%Q /\
    C_vi = transpose [[0; -1; 0]; [1; 0; 0]; [0; 0; 1]]%Q.
Proof.
  eapply (@velodyne_frame_from_imu_yaw
            Extern.from_quat_as_matrix Extern.linalg_inv
            1%Q 0%Q 0%Q 0%Q [[1]; [2]; [3]]%Q None).
  vm_compute; reflexivity.
Defined.

(** C2 as stated fails: for the heading [(3/5, 0, 4/5, 0)] the returned
    yaw-only rotation differs from the extrinsic rotation times the
    conversion of the original heading with its components 0 and 1 zeroed. *)
Lemma velodyne_frame_from_imu_yaw_counterexample :
  exists T_vo C_vo_yaw C_io_yaw C_claimed,
    velodyne_frame_from_imu_exact [3 # 5; 0; 4 # 5; 0]%Q [[0]; [0]; [0]]%Q None
    = Py.ret (T_vo, C_vo_yaw) /\
    Py.bind (VisUtils.yaw_heading [3 # 5; 0; 4 # 5; 0]%Q) Extern.from_quat_as_matrix
    = Py.ret C_io_yaw /\
    matmul (transpose [[0; -1; 0]; [1; 0; 0]; [0; 0; 1]]%Q) C_io_yaw = Py.ret C_claimed /\
    Extern.mat_eqb C_vo_yaw C_claimed = false.
Proof.
  do 4 eexists; repeat split; vm_compute; reflexivity.
Qed.

(** C4 as stated fails: with an extrinsic that doubles lengths the call
    succeeds, and the yaw-only rotation it returns is half the identity:
    [C . C^T] misses the identity by 3/4. *)
Lemma velodyne_frame_from_imu_unchecked_counterexample :
  exists T_vi T_vo C_vo_yaw,
    Extern.linalg_inv VisUtils.T_iv_doubling = Py.ret T_vi /\
    Py.bind (matmul VisUtils.T_iv_doubling T_vi)
            (fun P => Py.ret (Extern.mat_eqb P (Extern.identity 4))) = Py.ret true /\
    velodyne_frame_from_imu_exact [1; 0; 0; 0]%Q [[0]; [0]; [0]]%Q
                                  (Some VisUtils.T_iv_doubling)
    = Py.ret (T_vo, C_vo_yaw) /\
    Extern.mat_eqb C_vo_yaw [[1 # 2; 0; 0]; [0; 1 # 2; 0]; [0; 0; 1 # 2]]%Q = true /\
    Extern.orthonormal_within (1 # 2) C_vo_yaw = false.
Proof.
  do 3 eexists; repeat split; vm_compute; reflexivity.
Qed.

(** The conversion is applied to the reordered heading: when it raises
    there, [velodyne_frame_from_imu] raises the same exception. *)
Lemma velodyne_frame_from_imu_converts_reordered
      (from_quat_as_matrix : list Q -> Py.res (matrix Q))
      (linalg_inv : matrix Q -> Py.res (matrix Q))
      (q0 q1 q2 q3 : Q) (r_io : matrix Q) (T_iv : option (matrix Q)) (e : Py.exn) :
  from_quat_as_matrix [q1; q2; q3; Qopp q0] = Py.raise e ->
  VisUtils.velodyne_frame_from_imu from_quat_as_matrix linalg_inv
                                   [q0; q1; q2; q3] r_io T_iv
  = Py.raise e.
Proof.
  intros He; unfold VisUtils.velodyne_frame_from_imu.
  rewrite reorder_heading_value; simpl Py.bind; rewrite He; reflexivity.
Qed.

Lemma length3_inv {B : Type} (l : list B) :
  length l = 3%nat -> exists a b c, l = [a; b; c].
Proof.
  destruct l as [|a [|b [|c [|d l]]]]; simpl; intros Hl; try discriminate.
  exists a, b, c; reflexivity.
Qed.

Lemma shape33_inv (M : matrix Q) :
  shape M 3 3 ->
  exists a b c d e f g h i, M = [[a; b; c]; [d; e; f]; [g; h; i]].
Proof.
  intros [Hr Hc].
  destruct (length3_inv _ Hr) as (r1 & r2 & r3 & ->).
  inversion Hc as [|? ? H1 Hc1]; subst.
  inversion Hc1 as [|? ? H2 Hc2]; subst.
  inversion Hc2 as [|? ? H3 _]; subst.
  destruct (length3_inv _ H1) as (a & b & c & ->).
  destruct (length3_inv _ H2) as (d & e & f & ->).
  destruct (length3_inv _ H3) as (g & h & i & ->).
  exists a, b, c, d, e, f, g, h, i; reflexivity.
Qed.

Lemma shape31_inv (M : matrix Q) :
  shape M 3 1 -> exists x y z, M = [[x]; [y]; [z]].
Proof.
  intros [Hr Hc].
  destruct (length3_inv _ Hr) as (r1 & r2 & r3 & ->).
  inversion Hc as [|? ? H1 Hc1]; subst.
  inversion Hc1 as [|? ? H2 Hc2]; subst.
  inversion Hc2 as [|? ? H3 _]; subst.
  destruct r1 as [|x [|]]; try discriminate.
  destruct r2 as [|y [|]]; try discriminate.
  destruct r3 as [|z [|]]; try discriminate.
  exists x, y, z; reflexivity.
Qed.

Section PoseResolverDefault.
Import VisUtils.
Local Open Scope Q_scope.

Variable from_quat_as_matrix : list Q -> Py.res (matrix Q).
Variable linalg_inv : matrix Q -> Py.res (matrix Q).

Ltac forall2_rows H :=
  let R1 := fresh "R" in let R2 := fresh "R" in let R3 := fresh "R" in
  let T1 := fresh "T" in let T2 := fresh "T" in
  inversion H as [|? ? ? ? R1 T1]; subst; clear H;
  inversion T1 as [|? ? ? ? R2 T2]; subst; clear T1;
  inversion T2 as [|? ? ? ? R3 _]; subst; clear T2;
  forall2_entries R1; forall2_entries R2; forall2_entries R3
with forall2_entries R :=
  let E1 := fresh "E" in let E2 := fresh "E" in let E3 := fresh "E" in
  let T1 := fresh "T" in let T2 := fresh "T" in
  inversion R as [|? ? ? ? E1 T1]; subst; clear R;
  inversion T1 as [|? ? ? ? E2 T2]; subst; clear T1;
  inversion T2 as [|? ? ? ? E3 _]; subst; clear T2.

(** C4 (as amended).  [velodyne_frame_from_imu] checks no orthonormality
    and raises no validation error.  With the default extrinsic and a 3x1
    position, whenever the two quaternion conversions return 3x3 matrices
    the call returns; the rotation block of the transform it returns is
    orthonormal when the converted heading is, and the yaw-only rotation is
    orthonormal when the converted yaw heading is. *)
Theorem velodyne_frame_from_imu_default_orthonormal
        (q0 q1 q2 q3 : Q) (r_io C_io C_io_yaw : matrix Q) :
  shape r_io 3 1 ->
  from_quat_as_matrix [q1; q2; q3; - q0] = Py.ret C_io ->
  from_quat_as_matrix [0; 0; q3; - q0] = Py.ret C_io_yaw ->
  shape C_io 3 3 ->
  shape C_io_yaw 3 3 ->
  exists T_vo C_vo_yaw,
    velodyne_frame_from_imu from_quat_as_matrix linalg_inv [q0; q1; q2; q3] r_io None
    = Py.ret (T_vo, C_vo_yaw) /\
    (Extern.orthonormal C_io -> Extern.orthonormal (block 3 3 T_vo)) /\
    (Extern.orthonormal C_io_yaw -> Extern.orthonormal C_vo_yaw).
Proof.
  intros Hr HC Hyaw HsC Hsyaw.
  destruct (shape31_inv Hr) as (x & y & z & ->).
  destruct (shape33_inv HsC) as (a & b & c & d & e & f & g & h & i & ->).
  destruct (shape33_inv Hsyaw) as (a' & b' & c' & d' & e' & f' & g' & h' & i' & ->).
  unfold velodyne_frame_from_imu; rewrite reorder_heading_value; simpl Py.bind.
  rewrite HC; simpl Py.bind. rewrite Hyaw; simpl Py.bind.
  do 2 eexists; split; [reflexivity|]; split;
    intros (G & HG & HI); injection HG as <-;
    unfold Extern.orthonormal; (eexists; split; [reflexivity|]);
    unfold Extern.mat_eq in *; simpl in *;
    forall2_rows HI;
    unfold dot, Extern.identity in *; simpl in *;
    repeat (apply Forall2_cons || apply Forall2_nil); Lqa.lra.
Qed.

End PoseResolverDefault.

Lemma identity_orthonormal :
  Extern.orthonormal [[1; 0; 0]; [0; 1; 0]; [0; 0; 1]]%Q.
Proof.
  eexists; split; [vm_compute; reflexivity|]; repeat constructor.
Qed.

Lemma velodyne_frame_from_imu_default_orthonormal_witness :
  exists T_vo C_vo_yaw,
    velodyne_frame_from_imu_exact [1; 0; 0; 0]%Q [[1]; [2]; [3]]%Q None
    = Py.ret (T_vo, C_vo_yaw) /\
    Extern.orthonormal (block 3 3 T_vo) /\
    Extern.orthonormal C_vo_yaw.
Proof.
  destruct (@velodyne_frame_from_imu_default_orthonormal
              Extern.from_quat_as_matrix Extern.linalg_inv
              1%Q 0%Q 0%Q 0%Q [[1]; [2]; [3]]%Q
              [[1; 0; 0]; [0; 1; 0]; [0; 0; 1]]%Q
              [[1; 0; 0]; [0; 1; 0]; [0; 0; 1]]%Q)
    as (T_vo & C_vo_yaw & Hret & HT & HC).
  - split; [reflexivity | repeat constructor].
  - vm_compute; reflexivity.
  - vm_compute; reflexivity.
  - split; [reflexivity | repeat constructor].
  - split; [reflexivity | repeat constructor].
  - exists T_vo, C_vo_yaw; split; [exact Hret|]; split.
    + apply HT, identity_orthonormal.
    + apply HC, identity_orthonormal.
Defined.

(** ** Rotation algebra *)

Section RotationFacts.
Import VisUtils.
Local Open Scope R_scope.

Lemma arctan2_pos_x (y x : R) : 0 < x -> arctan2 y x = atan (y / x).
Proof. intros Hx; unfold arctan2; destruct (Rlt_dec 0 x); [reflexivity | contradiction]. Qed.

Lemma arctan2_zero_x_neg (y : R) : y < 0 -> arctan2 y 0 = - (PI / 2).
Proof.
  intros Hy; unfold arctan2.
  destruct (Rlt_dec 0 0) as [H0|_]; [lra|].
  destruct (Rlt_dec 0 y); [lra|].
  destruct (Rlt_dec y 0); [reflexivity | contradiction].
Qed.

Lemma arctan2_zero_x_pos (y : R) : 0 < y -> arctan2 y 0 = PI / 2.
Proof.
  intros Hy; unfold arctan2.
  destruct (Rlt_dec 0 0) as [H0|_]; [lra|].
  destruct (Rlt_dec 0 y); [reflexivity | contradiction].
Qed.

Lemma tan_shift_PI (t : R) : cos t <> 0 -> tan (t + PI) = tan t.
Proof.
  intros Hc; unfold tan; rewrite neg_sin, neg_cos; field; exact Hc.
Qed.

Lemma polar_quotient (r t : R) : 0 < r -> cos t <> 0 -> r * sin t / (r * cos t) = tan t.
Proof. intros Hr Hc; unfold tan; field; split; [exact Hc | lra]. Qed.

(** [arctan2] recovers the angle of a point given in polar form. *)
Lemma arctan2_polar (r t : R) :
  0 < r -> - PI < t < PI -> arctan2 (r * sin t) (r * cos t) = t.
Proof.
  intros Hr [Hlo Hhi].
  assert (HPI := PI_RGT_0).
  destruct (Rtotal_order t (- (PI / 2))) as [Hlt | [Heq | Hgt]].
  - (* third quadrant *)
    assert (Hc : cos (t + PI) > 0) by (apply cos_gt_0; lra).
    assert (Hs : sin (t + PI) > 0) by (apply sin_gt_0; lra).
    rewrite neg_cos in Hc; rewrite neg_sin in Hs.
    unfold arctan2.
    destruct (Rlt_dec 0 (r * cos t)); [nra|].
    destruct (Rlt_dec (r * cos t) 0); [|nra].
    destruct (Rle_dec 0 (r * sin t)); [nra|].
    rewrite polar_quotient by lra.
    rewrite <- tan_shift_PI by lra.
    rewrite atan_tan by lra. lra.
  - subst t. rewrite cos_neg, sin_neg, cos_PI2, sin_PI2.
    replace (r * 0) with 0 by ring.
    apply arctan2_zero_x_neg; lra.
  - destruct (Rtotal_order t (PI / 2)) as [Hlt2 | [Heq2 | Hgt2]].
    + (* right half plane *)
      assert (Hc : 0 < cos t) by (apply cos_gt_0; lra).
      rewrite arctan2_pos_x by nra.
      rewrite polar_quotient by lra.
      apply atan_tan; lra.
    + subst t. rewrite cos_PI2, sin_PI2.
      replace (r * 0) with 0 by ring.
      apply arctan2_zero_x_pos; lra.
    + (* second quadrant *)
      assert (Hc : cos t < 0) by (apply cos_lt_0; lra).
      assert (Hs : 0 < sin t) by (apply sin_gt_0; lra).
      unfold arctan2.
      destruct (Rlt_dec 0 (r * cos t)); [nra|].
      destruct (Rlt_dec (r * cos t) 0); [|nra].
      destruct (Rle_dec 0 (r * sin t)); [|nra].
      rewrite polar_quotient by lra.
      replace (tan t) with (tan ((t - PI) + PI)) by (f_equal; ring).
      assert (Hc' : cos (t - PI) <> 0).
      { intros E. replace t with ((t - PI) + PI) in Hc by ring.
        rewrite neg_cos in Hc; lra. }
      rewrite tan_shift_PI by exact Hc'.
      rewrite atan_tan by lra. lra.
Qed.

Ltac list_eq :=
  repeat match goal with
         | |- inr _ = inr _ => apply f_equal
         | |- (_ :: _) = (_ :: _) => apply f_equal2
         | |- [] = [] => reflexivity
         end.

Lemma rot_zyx_entries (yaw pitch roll : R) :
  rot_zyx yaw pitch roll = Py.ret
    [[cos yaw * cos pitch;
      cos yaw * sin pitch * sin roll - sin yaw * cos roll;
      cos yaw * sin pitch * cos roll + sin yaw * sin roll];
     [sin yaw * cos pitch;
      sin yaw * sin pitch * sin roll + cos yaw * cos roll;
      sin yaw * sin pitch * cos roll - cos yaw * sin roll];
     [- sin pitch; cos pitch * sin roll; cos pitch * cos roll]].
Proof.
  unfold rot_zyx, rot_z, rot_y, rot_x, matmul, dot; simpl.
  unfold Py.ret; list_eq; ring.
Qed.

End RotationFacts.

Section RotationClaims.
Import VisUtils.
Local Open Scope R_scope.

Lemma c_y_value (c a : R) :
  0 <= c ->
  sqrt (c * cos a * (c * cos a * 1) + c * sin a * (c * sin a * 1)) = c.
Proof.
  intros Hc.
  replace (c * cos a * (c * cos a * 1) + c * sin a * (c * sin a * 1))
    with (c ^ 2 * (Rsqr (sin a) + Rsqr (cos a))) by (unfold Rsqr; ring).
  rewrite sin2_cos2, Rmult_1_r; apply sqrt_pow2; exact Hc.
Qed.

Lemma arctan2_unit (t : R) : - PI < t < PI -> arctan2 (sin t) (cos t) = t.
Proof.
  intros Ht; assert (Hp := @arctan2_polar 1 t Rlt_0_1 Ht).
  rewrite !Rmult_1_l in Hp; exact Hp.
Qed.

Lemma eps_default_pos : 0 < eps_default.
Proof. unfold eps_default; apply Rinv_0_lt_compat; apply pow_lt; lra. Qed.

Lemma eps_default_lt_1 : eps_default < 1.
Proof.
  unfold eps_default.
  assert (Hp : 1 < 10 ^ 15) by (simpl; lra).
  apply Rlt_le_trans with (/ 1); [apply Rinv_lt_contravar; lra | rewrite Rinv_1; lra].
Qed.

(** C5 (as amended).  For yaw and roll in (-PI, PI) and pitch in
    (-PI/2, PI/2) with [cos pitch] above the threshold,
    [rot_to_yaw_pitch_roll] applied to the transpose of
    [rot_z(yaw) . rot_y(pitch) . rot_x(roll)] returns (yaw, pitch, roll). *)
Theorem rot_to_yaw_pitch_roll_roundtrip_transposed (yaw pitch roll : R) :
  - PI < yaw < PI ->
  - PI < roll < PI ->
  - (PI / 2) < pitch < PI / 2 ->
  eps_default < cos pitch ->
  (C <- rot_zyx yaw pitch roll ;; rot_to_yaw_pitch_roll (transpose C) eps_default)
  = Py.ret (yaw, pitch, roll).
Proof.
  intros Hyaw Hroll Hpitch Heps.
  assert (Hcp : 0 < cos pitch) by (apply cos_gt_0; lra).
  assert (HPI := PI_RGT_0).
  rewrite rot_zyx_entries; simpl Py.bind.
  unfold rot_to_yaw_pitch_roll, c_y_of; simpl.
  rewrite c_y_value by lra.
  destruct (Rlt_dec eps_default (cos pitch)) as [_|Hn]; [|contradiction].
  rewrite Ropp_involutive, arctan2_unit by lra.
  rewrite (Rmult_comm (sin yaw)), (Rmult_comm (cos yaw)).
  rewrite !arctan2_polar by assumption.
  reflexivity.
Qed.

Lemma eps_default_lt_half : eps_default < 1 / 2.
Proof.
  unfold eps_default.
  assert (Hp : 2 < 10 ^ 15) by (simpl; lra).
  apply Rlt_le_trans with (/ 2); [apply Rinv_lt_contravar; lra | lra].
Qed.

Lemma rot_to_yaw_pitch_roll_roundtrip_transposed_witness :
  (C <- rot_zyx (PI / 2) (PI / 3) (- (PI / 4)) ;;
   rot_to_yaw_pitch_roll (transpose C) eps_default)
  = Py.ret (PI / 2, PI / 3, - (PI / 4)).
Proof.
  assert (HPI := PI_RGT_0).
  apply rot_to_yaw_pitch_roll_roundtrip_transposed; try lra.
  rewrite cos_PI3; exact eps_default_lt_half.
Defined.

(** C5 as stated fails: for yaw = PI/2, pitch = 0, roll = 0, all within
    the stated ranges, the decomposition of
    [rot_z(yaw) . rot_y(pitch) . rot_x(roll)] itself returns the yaw
    -PI/2. *)
Lemma rot_to_yaw_pitch_roll_roundtrip_counterexample :
  (- PI < PI / 2 < PI /\ - PI < 0 < PI /\ - (PI / 2) < 0 < PI / 2 /\
   eps_default < cos 0) /\
  (C <- rot_zyx (PI / 2) 0 0 ;; rot_to_yaw_pitch_roll C eps_default)
  = Py.ret (- (PI / 2), 0, 0) /\
  - (PI / 2) <> PI / 2.
Proof.
  assert (HPI := PI_RGT_0).
  split; [|split].
  - repeat split; try lra. rewrite cos_0; exact eps_default_lt_1.
  - rewrite rot_zyx_entries; simpl Py.bind.
    unfold rot_to_yaw_pitch_roll, c_y_of; simpl.
    rewrite cos_PI2, sin_PI2, cos_0, sin_0.
    replace (1 * 1 * (1 * 1 * 1) + (1 * 0 * 1 - 0 * 0) * ((1 * 0 * 1 - 0 * 0) * 1))
      with 1 by ring.
    rewrite sqrt_1.
    destruct (Rlt_dec eps_default 1) as [_|Hn]; [|exfalso; apply Hn, eps_default_lt_1].
    replace (0 * 0 * 0 - 1 * 1) with (-1) by ring.
    replace (0 * 1) with 0 by ring.
    replace (- (0 * 0 * 1 + 1 * 0)) with 0 by ring.
    replace (1 * 0 * 1 - 0 * 0) with 0 by ring.
    replace (1 * 1) with 1 by ring.
    rewrite arctan2_zero_x_neg by lra.
    rewrite !arctan2_pos_x by lra.
    replace (0 / 1) with 0 by field.
    rewrite atan_0; reflexivity.
  - lra.
Qed.

(** C6 (as amended).  For the transpose of
    [rot_z(yaw) . rot_y(PI/2) . rot_x(roll)], whatever the yaw and the
    roll, [c_y] is 0, which is not above the threshold:
    [rot_to_yaw_pitch_roll] takes the degenerate branch and returns the
    pitch PI/2 and the roll 0. *)
Theorem rot_to_yaw_pitch_roll_gimbal_lock_transposed (yaw roll : R) :
  exists C yaw',
    rot_zyx yaw (PI / 2) roll = Py.ret C /\
    c_y_of (transpose C) = Py.ret 0 /\
    ~ eps_default < 0 /\
    rot_to_yaw_pitch_roll (transpose C) eps_default = Py.ret (yaw', PI / 2, 0).
Proof.
  assert (HPI := PI_RGT_0). assert (He := eps_default_pos).
  eexists; eexists; split; [apply rot_zyx_entries|].
  rewrite cos_PI2, sin_PI2.
  assert (Hc : c_y_of (transpose
            [[cos yaw * 0; cos yaw * 1 * sin roll - sin yaw * cos roll;
              cos yaw * 1 * cos roll + sin yaw * sin roll];
             [sin yaw * 0; sin yaw * 1 * sin roll + cos yaw * cos roll;
              sin yaw * 1 * cos roll - cos yaw * sin roll];
             [- (1); 0 * sin roll; 0 * cos roll]]) = Py.ret 0).
  { unfold c_y_of; simpl.
    replace (0 * cos roll * (0 * cos roll * 1) + 0 * sin roll * (0 * sin roll * 1))
      with 0 by ring.
    rewrite sqrt_0; reflexivity. }
  split; [exact Hc|]; split; [exact (Rlt_asym _ _ He)|].
  unfold rot_to_yaw_pitch_roll; rewrite Hc; simpl Py.bind.
  destruct (Rlt_dec eps_default 0) as [Hlt|_]; [exfalso; exact (Rlt_asym _ _ He Hlt)|].
  simpl. rewrite Ropp_involutive, arctan2_zero_x_pos by lra.
  reflexivity.
Qed.

(** C6 as stated fails: for yaw = PI/2 and roll = 0 the matrix
    [rot_z(yaw) . rot_y(PI/2) . rot_x(roll)] itself has [c_y = 1], above the
    threshold; the regular branch is taken and the roll returned is PI/2. *)
Lemma rot_to_yaw_pitch_roll_gimbal_lock_counterexample :
  exists C,
    rot_zyx (PI / 2) (PI / 2) 0 = Py.ret C /\
    c_y_of C = Py.ret 1 /\
    eps_default < 1 /\
    rot_to_yaw_pitch_roll C eps_default = Py.ret (- (PI / 2), 0, PI / 2) /\
    PI / 2 <> 0.
Proof.
  assert (HPI := PI_RGT_0).
  eexists; split; [apply rot_zyx_entries|].
  rewrite cos_PI2, sin_PI2, cos_0, sin_0.
  assert (Hc : c_y_of
            [[0 * 0; 0 * 1 * 0 - 1 * 1; 0 * 1 * 1 + 1 * 0];
             [1 * 0; 1 * 1 * 0 + 0 * 1; 1 * 1 * 1 - 0 * 0];
             [- (1); 0 * 0; 0 * 1]] = Py.ret 1).
  { unfold c_y_of; simpl.
    replace (0 * 1 * (0 * 1 * 1) + (1 * 1 * 1 - 0 * 0) * ((1 * 1 * 1 - 0 * 0) * 1))
      with 1 by ring.
    rewrite sqrt_1; reflexivity. }
  split; [exact Hc|]; split; [exact eps_default_lt_1|]; split; [|lra].
  unfold rot_to_yaw_pitch_roll; rewrite Hc; simpl Py.bind.
  destruct (Rlt_dec eps_default 1) as [_|Hn]; [|exfalso; apply Hn, eps_default_lt_1].
  simpl.
  replace (0 * 1 * 0 - 1 * 1) with (-1) by ring.
  replace (0 * 0) with 0 by ring.
  replace (- (0 * 1 * 1 + 1 * 0)) with 0 by ring.
  replace (1 * 1 * 1 - 0) with 1 by ring.
  replace (0 * 1) with 0 by ring.
  rewrite arctan2_zero_x_neg, arctan2_zero_x_pos by lra.
  rewrite arctan2_pos_x by lra.
  replace (0 / 1) with 0 by field.
  rewrite atan_0; reflexivity.
Qed.

End RotationClaims.

(** ** Bilinear resampler *)

Section ResamplerClaims.
Import Resampler.

Lemma int32_small (z : Z) : (- 2 ^ 31 <= z < 2 ^ 31)%Z -> int32 z = z.
Proof. intros Hz; unfold int32; rewrite Z.mod_small; lia. Qed.





Lemma grid_rows_cols (img : image) (r c : nat) :
  grid img r c -> (0 < r)%nat -> rows img = r /\ cols img = c.
Proof.
  intros [Hr Hc] Hpos; split; [exact Hr|].
  destruct img as [|row img']; simpl in *; [lia|].
  inversion Hc as [|? ? H1 _]; exact H1.
Qed.

Lemma index_nonneg (n : nat) (i : Z) :
  (0 <= i < Z.of_nat n)%Z -> index n i = Py.ret (Z.to_nat i).
Proof.
  intros Hi; unfold index.
  replace ((0 <=? i) && (i <? Z.of_nat n))%Z with true; [reflexivity|].
  symmetry; apply andb_true_intro; split; [apply Z.leb_le | apply Z.ltb_lt]; lia.
Qed.


Lemma sample_in_bounds (img : image) (r c : nat) (y x : Z) :
  grid img r c -> (0 <= y < Z.of_nat r)%Z -> (0 <= x < Z.of_nat c)%Z ->
  sample img y x = Py.ret (nth (Z.to_nat x) (nth (Z.to_nat y) img []) []).
Proof.
  intros Hg Hy Hx; unfold sample.
  destruct (grid_rows_cols Hg) as [-> ->]; [lia|].
  rewrite !index_nonneg by assumption; reflexivity.
Qed.




End ResamplerClaims.




(** The same holds for any number of queries: when every query is a vertex
    of the grid, the result is the list of the samples at the queries. *)

Lemma zipWith_length {B C D : Type} (f : B -> C -> D) (a : list B) (b : list C) :
  length (Resampler.zipWith f a b) = Nat.min (length a) (length b).
Proof. unfold Resampler.zipWith; rewrite length_map; apply length_combine. Qed.

Lemma zipWith_eqb_diag (l : list Z) :
  Resampler.zipWith Z.eqb l l = repeat true (length l).
Proof.
  unfold Resampler.zipWith; induction l as [|z l IH]; simpl; [reflexivity|].
  rewrite Z.eqb_refl, IH; reflexivity.
Qed.

Lemma assign_where_all (n : nat) (f v : list Resampler.pixel) :
  length f = n -> length v = n ->
  Resampler.assign_where (repeat true n) f v = v.
Proof.
  unfold Resampler.assign_where, Resampler.zipWith.
  revert f v; induction n as [|n IH]; intros f v Hf Hv.
  - destruct v; [reflexivity | discriminate].
  - destruct f as [|a f]; [discriminate|]; destruct v as [|b v]; [discriminate|].
    simpl; f_equal; apply IH; [injection Hf | injection Hv]; auto.
Qed.

Lemma gather_in_bounds (img : Resampler.image) (r c : nat) (qs : list (Z * Z)) :
  Resampler.grid img r c ->
  Forall (fun q => (0 <= fst q < Z.of_nat c)%Z /\ (0 <= snd q < Z.of_nat r)%Z) qs ->
  Resampler.gather img (map snd qs) (map fst qs)
  = Py.ret (map (fun q => nth (Z.to_nat (fst q)) (nth (Z.to_nat (snd q)) img []) []) qs).
Proof.
  intros Hg Hqs; unfold Resampler.gather.
  rewrite !length_map, Nat.eqb_refl.
  induction Hqs as [|q qs [Hx Hy] _ IH]; simpl; [reflexivity|].
  rewrite (sample_in_bounds Hg Hy Hx), IH; reflexivity.
Qed.

Lemma bilinear_interp_at_vertices (img : Resampler.image) (r c : nat) (qs : list (Z * Z)) :
  Resampler.grid img r c ->
  (Z.of_nat r <= 2 ^ 31)%Z ->
  (Z.of_nat c <= 2 ^ 31)%Z ->
  Forall (fun q => (0 <= fst q < Z.of_nat c)%Z /\ (0 <= snd q < Z.of_nat r)%Z) qs ->
  Resampler.bilinear_interp img (map (fun q => inject_Z (fst q)) qs)
                                (map (fun q => inject_Z (snd q)) qs)
  = Py.ret (map (fun q => nth (Z.to_nat (fst q)) (nth (Z.to_nat (snd q)) img []) []) qs).
Proof.
  intros Hg Hr Hc Hqs; unfold Resampler.bilinear_interp.
  assert (Hx1 : map (fun v => Resampler.int32 (Qfloor v)) (map (fun q => inject_Z (fst q)) qs)
                = map fst qs).
  { rewrite map_map; apply map_ext_in; intros q Hq.
    rewrite Forall_forall in Hqs; destruct (Hqs q Hq) as [Hx _].
    rewrite Qfloor_Z; apply int32_small; lia. }
  assert (Hx2 : map (fun v => Resampler.int32 (Qceiling v)) (map (fun q => inject_Z (fst q)) qs)
                = map fst qs).
  { rewrite map_map; apply map_ext_in; intros q Hq.
    rewrite Forall_forall in Hqs; destruct (Hqs q Hq) as [Hx _].
    rewrite Qceiling_Z; apply int32_small; lia. }
  assert (Hy1 : map (fun v => Resampler.int32 (Qfloor v)) (map (fun q => inject_Z (snd q)) qs)
                = map snd qs).
  { rewrite map_map; apply map_ext_in; intros q Hq.
    rewrite Forall_forall in Hqs; destruct (Hqs q Hq) as [_ Hy].
    rewrite Qfloor_Z; apply int32_small; lia. }
  assert (Hy2 : map (fun v => Resampler.int32 (Qceiling v)) (map (fun q => inject_Z (snd q)) qs)
                = map snd qs).
  { rewrite map_map; apply map_ext_in; intros q Hq.
    rewrite Forall_forall in Hqs; destruct (Hqs q Hq) as [_ Hy].
    rewrite Qceiling_Z; apply int32_small; lia. }
  rewrite Hx1, Hx2, Hy1, Hy2, (gather_in_bounds Hg Hqs); simpl Py.bind.
  rewrite !zipWith_eqb_diag, !length_map.
  set (S := map (fun q => nth (Z.to_nat (fst q)) (nth (Z.to_nat (snd q)) img []) []) qs).
  assert (HS : @length (list Q) S = length qs) by apply length_map.
  assert (Hw : forall (B C D : Type) (f : B -> C -> D) (g : Z * Z -> B) (h : Z * Z -> C),
             length (Resampler.zipWith f (map g qs) (map h qs)) = length qs)
    by (intros; rewrite zipWith_length, !length_map; lia).
  assert (Hd : forall a b : list Q, length a = length qs -> length b = length qs ->
             length (Resampler.zipWith Qdiv a b) = length qs)
    by (intros a b Ha Hb; rewrite zipWith_length, Ha, Hb; lia).
  assert (Hx : forall a b : list Q, length a = length qs -> length b = length qs ->
             Resampler.assign_where (repeat true (length qs))
               (Resampler.plus (Resampler.times_r S a) (Resampler.times_r S b)) S = S).
  { intros a b Ha Hb; apply assign_where_all; [|exact HS].
    unfold Resampler.plus, Resampler.times_r.
    rewrite !zipWith_length, HS, Ha, Hb; lia. }
  rewrite !Hx by (apply Hd; apply Hw).
  unfold Py.ret; f_equal; apply assign_where_all; [|exact HS].
  unfold Resampler.plus, Resampler.times_l.
  rewrite !zipWith_length, !length_map, HS; lia.
Qed.

(** ** Evaluations *)

Example reorder_heading_1234 :
  VisUtils.reorder_heading [1; 2; 3; 4]%Q = Py.ret [2; 3; 4; -1 # 1]%Q.
Proof. vm_compute; reflexivity. Qed.

Example transform_points_two_points :
  VisUtils.transform_points VisUtils.draw_ascending
    [[1; 0; 0; 10]; [0; 1; 0; 20]; [0; 0; 1; 30]; [0; 0; 0; 1]]%Q
    VisUtils.two_points 1%Q
  = Py.ret [[11; 22; 33; 1]; [14; 25; 36; 1]]%Q.
Proof. vm_compute; reflexivity. Qed.

Example transform_points_too_many :
  VisUtils.transform_points VisUtils.draw_ascending VisUtils.T_identity
    VisUtils.two_points 2%Q
  = Py.raise Py.ValueError.
Proof. vm_compute; reflexivity. Qed.

Example get_device_pose_default :
  exists T_vo C_vo_yaw,
    VisUtils.get_device_pose Extern.from_quat_as_matrix Extern.linalg_inv
                             [1; 0; 0; 0]%Q [1; 2; 3]%Q None
    = Py.ret (T_vo, C_vo_yaw) /\
    Extern.mat_eqb T_vo
      [[0; 1; 0; -2]; [-1; 0; 0; 1]; [0; 0; 1; -345 # 100]; [0; 0; 0; 1]]%Q = true /\
    Extern.mat_eqb C_vo_yaw [[0; 1; 0]; [-1; 0; 0]; [0; 0; 1]]%Q = true.
Proof. do 2 eexists; repeat split; vm_compute; reflexivity. Qed.

Example bilinear_interp_midpoint :
  exists v,
    Resampler.bilinear_interp Resampler.img_corners [1 # 2]%Q [1 # 2]%Q
    = Py.ret [[v]] /\
    (Qabs (v - 25) < 1 # 1000000000000)%Q.
Proof. eexists; split; [vm_compute; reflexivity | vm_compute; reflexivity]. Qed.

Example bilinear_interp_out_of_grid :
  Resampler.bilinear_interp Resampler.img_2x3 [3]%Q [0]%Q = Py.raise Py.IndexError.
Proof. vm_compute; reflexivity. Qed.

(** * Further properties of the code *)

Ltac rows_eq :=
  repeat match goal with
         | |- inr _ = inr _ => apply f_equal
         | |- (_ :: _) = (_ :: _) => apply f_equal2
         | |- [] = [] => reflexivity
         end.

(** ** Rotation algebra: constructors *)

Section RotationExtras.
Import VisUtils.
Local Open Scope R_scope.

Lemma cos2_sin2 (a : R) : cos a * cos a + sin a * sin a = 1.
Proof. assert (Hs := sin2_cos2 a); unfold Rsqr in Hs; lra. Qed.

(** X1.  For every angle, each of [rot_x], [rot_y], [rot_z] is a proper
    rotation: the product with its transpose is the identity and the
    determinant is 1. *)
Theorem rot_xyz_orthonormal (a : R) :
  (matmul (rot_x a) (transpose (rot_x a)) = Py.ret SensorFrame.identity3 /\
   SensorFrame.det3 (rot_x a) = 1) /\
  (matmul (rot_y a) (transpose (rot_y a)) = Py.ret SensorFrame.identity3 /\
   SensorFrame.det3 (rot_y a) = 1) /\
  (matmul (rot_z a) (transpose (rot_z a)) = Py.ret SensorFrame.identity3 /\
   SensorFrame.det3 (rot_z a) = 1).
Proof.
  assert (Hcs := cos2_sin2 a).
  repeat split;
    unfold rot_x, rot_y, rot_z, matmul, dot, SensorFrame.identity3, SensorFrame.det3;
    simpl; unfold Py.ret; rows_eq; lra.
Qed.

(** X2.  Rotations about one axis compose by adding their angles:
    [rot_z(a) . rot_z(b) = rot_z(a + b)], and the same for [rot_x] and
    [rot_y]. *)
Theorem rot_xyz_compose (a b : R) :
  matmul (rot_x a) (rot_x b) = Py.ret (rot_x (a + b)) /\
  matmul (rot_y a) (rot_y b) = Py.ret (rot_y (a + b)) /\
  matmul (rot_z a) (rot_z b) = Py.ret (rot_z (a + b)).
Proof.
  repeat split;
    unfold rot_x, rot_y, rot_z, matmul, dot; simpl;
    rewrite cos_plus, sin_plus; unfold Py.ret; rows_eq; ring.
Qed.

(** X3.  The transpose of a rotation about an axis is the rotation by the
    opposite angle, and undoes it: [rot_z(a)^T = rot_z(-a)] and
    [rot_z(a) . rot_z(-a)] is the identity; the same for [rot_x] and
    [rot_y]. *)
Theorem rot_xyz_inverse (a : R) :
  (transpose (rot_x a) = rot_x (- a) /\
   matmul (rot_x a) (rot_x (- a)) = Py.ret SensorFrame.identity3) /\
  (transpose (rot_y a) = rot_y (- a) /\
   matmul (rot_y a) (rot_y (- a)) = Py.ret SensorFrame.identity3) /\
  (transpose (rot_z a) = rot_z (- a) /\
   matmul (rot_z a) (rot_z (- a)) = Py.ret SensorFrame.identity3).
Proof.
  assert (Hcs := cos2_sin2 a).
  repeat split;
    unfold rot_x, rot_y, rot_z, matmul, transpose, transposeW, col, dot,
           SensorFrame.identity3; simpl;
    rewrite ?cos_neg, ?sin_neg; unfold Py.ret; rows_eq; lra.
Qed.

End RotationExtras.

(** ** Rotation algebra: the decomposition *)

Section DecompositionExtras.
Import VisUtils.
Local Open Scope R_scope.

Lemma atan_nonpos (t : R) : t <= 0 -> atan t <= 0.
Proof.
  intros [Ht | ->]; [|rewrite atan_0; lra].
  apply Rlt_le; rewrite <- atan_0; apply atan_increasing; exact Ht.
Qed.

Lemma atan_pos (t : R) : 0 < t -> 0 < atan t.
Proof. intros Ht; rewrite <- atan_0; apply atan_increasing; exact Ht. Qed.

Lemma arctan2_range (y x : R) : - PI < arctan2 y x <= PI.
Proof.
  assert (HPI := PI_RGT_0). assert (Hb := atan_bound (y / x)).
  unfold arctan2.
  destruct (Rlt_dec 0 x) as [Hx|Hx]; [lra|].
  destruct (Rlt_dec x 0) as [Hx'|Hx'].
  - destruct (Rle_dec 0 y) as [Hy|Hy].
    + assert (Hq : y / x <= 0).
      { unfold Rdiv. assert (Hi : / x < 0) by (apply Rinv_lt_0_compat; exact Hx'). nra. }
      assert (Ha := atan_nonpos Hq). lra.
    + assert (Hq : 0 < y / x).
      { unfold Rdiv. assert (Hi : / x < 0) by (apply Rinv_lt_0_compat; exact Hx'). nra. }
      assert (Ha := atan_pos Hq). lra.
  - destruct (Rlt_dec 0 y); [lra|]. destruct (Rlt_dec y 0); lra.
Qed.

Lemma arctan2_range_right (y x : R) : 0 <= x -> - (PI / 2) <= arctan2 y x <= PI / 2.
Proof.
  intros Hx0.
  assert (HPI := PI_RGT_0). assert (Hb := atan_bound (y / x)).
  unfold arctan2.
  destruct (Rlt_dec 0 x) as [Hx|Hx]; [lra|].
  destruct (Rlt_dec x 0) as [Hx'|Hx']; [lra|].
  destruct (Rlt_dec 0 y); [lra|]. destruct (Rlt_dec y 0); lra.
Qed.

Lemma arctan2_zero_y (x : R) : 0 < x -> arctan2 0 x = 0.
Proof.
  intros Hx; rewrite arctan2_pos_x by exact Hx.
  unfold Rdiv; rewrite Rmult_0_l; apply atan_0.
Qed.

Lemma getitem2_shape33 (C : matrix R) (i j : nat) :
  shape C 3 3 -> (i < 3)%nat -> (j < 3)%nat -> exists v, getitem2 C i j = Py.ret v.
Proof.
  intros [Hr Hc] Hi Hj; unfold getitem2, getitem.
  destruct (nth_error C i) as [row|] eqn:E.
  - assert (Hl : length row = 3%nat).
    { rewrite Forall_forall in Hc; apply Hc; eapply nth_error_In; exact E. }
    destruct (nth_error row j) as [v|] eqn:E'; [exists v; reflexivity|].
    apply nth_error_None in E'; lia.
  - apply nth_error_None in E; lia.
Qed.

Lemma shape33_inv_real (M : matrix R) :
  shape M 3 3 ->
  exists a b c d e f g h i, M = [[a; b; c]; [d; e; f]; [g; h; i]].
Proof.
  intros [Hr Hc].
  destruct (length3_inv _ Hr) as (r1 & r2 & r3 & ->).
  inversion Hc as [|? ? H1 Hc1]; subst.
  inversion Hc1 as [|? ? H2 Hc2]; subst.
  inversion Hc2 as [|? ? H3 _]; subst.
  destruct (length3_inv _ H1) as (a & b & c & ->).
  destruct (length3_inv _ H2) as (d & e & f & ->).
  destruct (length3_inv _ H3) as (g & h & i & ->).
  exists a, b, c, d, e, f, g, h, i; reflexivity.
Qed.

Lemma decompose_rot_z (g : R) :
  - PI < g < PI -> rot_to_yaw_pitch_roll (rot_z g) eps_default = Py.ret (- g, 0, 0).
Proof.
  intros Hg. assert (HPI := PI_RGT_0). assert (H1 := eps_default_lt_1).
  unfold rot_to_yaw_pitch_roll, c_y_of, rot_z; simpl.
  replace (1 * (1 * 1) + 0 * (0 * 1)) with 1 by ring; rewrite sqrt_1.
  destruct (Rlt_dec eps_default 1) as [_|Hn]; [|contradiction].
  rewrite Ropp_0, !arctan2_zero_y by lra.
  rewrite <- (sin_neg g), <- (cos_neg g), arctan2_unit by lra.
  reflexivity.
Qed.

Lemma decompose_rot_y (b : R) :
  - (PI / 2) < b < PI / 2 -> eps_default < cos b ->
  rot_to_yaw_pitch_roll (rot_y b) eps_default = Py.ret (0, - b, 0).
Proof.
  intros Hb Heps. assert (HPI := PI_RGT_0).
  assert (Hcb : 0 < cos b) by (apply cos_gt_0; lra).
  unfold rot_to_yaw_pitch_roll, c_y_of, rot_y; simpl.
  replace (cos b * (cos b * 1) + 0 * (0 * 1)) with (cos b ^ 2) by ring.
  rewrite sqrt_pow2 by lra.
  destruct (Rlt_dec eps_default (cos b)) as [_|Hn]; [|contradiction].
  rewrite !arctan2_zero_y by lra.
  rewrite <- (sin_neg b), <- (cos_neg b), arctan2_unit by lra.
  reflexivity.
Qed.

Lemma decompose_rot_x (a : R) :
  - PI < a < PI -> rot_to_yaw_pitch_roll (rot_x a) eps_default = Py.ret (0, 0, - a).
Proof.
  intros Ha. assert (HPI := PI_RGT_0). assert (H1 := eps_default_lt_1).
  unfold rot_to_yaw_pitch_roll, c_y_of, rot_x; simpl.
  replace (cos a * (cos a * 1) + - sin a * (- sin a * 1))
    with (Rsqr (sin a) + Rsqr (cos a)) by (unfold Rsqr; ring).
  rewrite sin2_cos2, sqrt_1.
  destruct (Rlt_dec eps_default 1) as [_|Hn]; [|contradiction].
  rewrite Ropp_0, !arctan2_zero_y by lra.
  rewrite <- (sin_neg a), <- (cos_neg a), arctan2_unit by lra.
  reflexivity.
Qed.

(** X4.  [rot_to_yaw_pitch_roll] reads each elementary rotation of the
    file as the opposite angle: [rot_z(g)] decomposes to (-g, 0, 0),
    [rot_y(b)] to (0, -b, 0) and [rot_x(a)] to (0, 0, -a), for [g] and [a]
    in (-PI, PI) and [b] in (-PI/2, PI/2) with [cos b] above the
    threshold. *)
Theorem rot_to_yaw_pitch_roll_elementary (a b g : R) :
  - PI < a < PI ->
  - (PI / 2) < b < PI / 2 ->
  eps_default < cos b ->
  - PI < g < PI ->
  rot_to_yaw_pitch_roll (rot_z g) eps_default = Py.ret (- g, 0, 0) /\
  rot_to_yaw_pitch_roll (rot_y b) eps_default = Py.ret (0, - b, 0) /\
  rot_to_yaw_pitch_roll (rot_x a) eps_default = Py.ret (0, 0, - a).
Proof.
  intros Ha Hb Heps Hg; split; [|split].
  - apply decompose_rot_z; exact Hg.
  - apply decompose_rot_y; assumption.
  - apply decompose_rot_x; exact Ha.
Qed.

Lemma rot_to_yaw_pitch_roll_elementary_witness :
  rot_to_yaw_pitch_roll (rot_z (PI / 2)) eps_default = Py.ret (- (PI / 2), 0, 0) /\
  rot_to_yaw_pitch_roll (rot_y (PI / 3)) eps_default = Py.ret (0, - (PI / 3), 0) /\
  rot_to_yaw_pitch_roll (rot_x (PI / 4)) eps_default = Py.ret (0, 0, - (PI / 4)).
Proof.
  assert (HPI := PI_RGT_0).
  apply rot_to_yaw_pitch_roll_elementary; try lra.
  rewrite cos_PI3; exact eps_default_lt_half.
Defined.

(** X5.  Whatever the matrix and the threshold, the angles that
    [rot_to_yaw_pitch_roll] returns lie in fixed ranges: yaw and roll in
    (-PI, PI], pitch in [-PI/2, PI/2]. *)
Theorem rot_to_yaw_pitch_roll_ranges (C : matrix R) (eps yaw pitch roll : R) :
  rot_to_yaw_pitch_roll C eps = Py.ret (yaw, pitch, roll) ->
  - PI < yaw <= PI /\ - (PI / 2) <= pitch <= PI / 2 /\ - PI < roll <= PI.
Proof.
  assert (HPI := PI_RGT_0).
  unfold rot_to_yaw_pitch_roll, c_y_of; intros Hr.
  bind_inv Hr c_y Hcy.
  bind_inv Hcy Cii HCii. bind_inv Hcy Cji HCji. injection Hcy as <-.
  match type of Hr with
  | context [Rlt_dec eps ?v] =>
      assert (Hpos : 0 <= v) by apply sqrt_pos; destruct (Rlt_dec eps v)
  end.
  - bind_inv Hr a Ha. bind_inv Hr b Hb. bind_inv Hr c Hc.
    bind_inv Hr d Hd. bind_inv Hr e He.
    injection Hr as <- <- <-.
    split; [apply arctan2_range|]; split; [apply arctan2_range_right; exact Hpos|].
    apply arctan2_range.
  - bind_inv Hr c Hc. bind_inv Hr d Hd. bind_inv Hr e He.
    injection Hr as <- <- <-.
    split; [apply arctan2_range|]; split; [apply arctan2_range_right; exact Hpos|].
    lra.
Qed.

Lemma rot_to_yaw_pitch_roll_ranges_witness :
  - PI < - (PI / 2) <= PI /\ - (PI / 2) <= 0 <= PI / 2 /\ - PI < 0 <= PI.
Proof.
  apply (@rot_to_yaw_pitch_roll_ranges (rot_z (PI / 2)) eps_default).
  apply decompose_rot_z; assert (HPI := PI_RGT_0); lra.
Defined.

Lemma rot_to_yaw_pitch_roll_returns (C : matrix R) (eps : R) :
  shape C 3 3 -> exists ypr, rot_to_yaw_pitch_roll C eps = Py.ret ypr.
Proof.
  intros Hs.
  destruct (shape33_inv_real Hs) as (a & b & c & d & e & f & g & h & i & ->).
  unfold rot_to_yaw_pitch_roll, c_y_of; simpl.
  destruct (Rlt_dec eps _); eexists; reflexivity.
Qed.

Lemma rot_to_yaw_pitch_roll_short (C : matrix R) (eps : R) :
  (length C < 3)%nat -> rot_to_yaw_pitch_roll C eps = Py.raise Py.IndexError.
Proof.
  intros Hl; unfold rot_to_yaw_pitch_roll, c_y_of, getitem2.
  replace (nth_error C 2) with (@None (list R)); [reflexivity|].
  symmetry; apply nth_error_None; lia.
Qed.

(** X6.  [rot_to_yaw_pitch_roll] returns on every 3x3 matrix, whatever its
    entries and the threshold, and raises [IndexError] on a matrix with fewer
    than three rows. *)
Theorem rot_to_yaw_pitch_roll_total (C : matrix R) (eps : R) :
  (shape C 3 3 -> exists ypr, rot_to_yaw_pitch_roll C eps = Py.ret ypr) /\
  ((length C < 3)%nat -> rot_to_yaw_pitch_roll C eps = Py.raise Py.IndexError).
Proof.
  split; [apply rot_to_yaw_pitch_roll_returns | apply rot_to_yaw_pitch_roll_short].
Qed.

Lemma rot_to_yaw_pitch_roll_total_witness :
  (exists ypr, rot_to_yaw_pitch_roll SensorFrame.identity3 eps_default = Py.ret ypr) /\
  rot_to_yaw_pitch_roll [[1; 0; 0]; [0; 1; 0]] eps_default = Py.raise Py.IndexError.
Proof.
  split.
  - apply (proj1 (rot_to_yaw_pitch_roll_total SensorFrame.identity3 eps_default)).
    split; [reflexivity | repeat constructor].
  - apply (proj2 (rot_to_yaw_pitch_roll_total [[1; 0; 0]; [0; 1; 0]] eps_default)).
    simpl; lia.
Defined.

End DecompositionExtras.

(** ** Geometry transformer: [transform_points] for any keep probability *)

Section TransformPointsExtras.
Import VisUtils.
Context {A : Type} `{Scalar A}.

Lemma transform_points_cases
      (choice : nat -> Z -> Py.res (list nat)) (T : matrix A)
      (raw_pcd : list (raw_point A)) (keep_prob : Q) :
  choice_contract choice ->
  ncols T = 4%nat ->
  let size := Py.int (keep_prob * inject_Z (Py.len raw_pcd))%Q in
  ((0 <= size <= Py.len raw_pcd)%Z ->
   exists idx,
     length idx = Z.to_nat size /\ NoDup idx /\
     Forall (fun i => (i < length raw_pcd)%nat) idx /\
     transform_points choice T raw_pcd keep_prob
     = Py.ret (map (fun i => apply_T T (nth i raw_pcd origin)) idx)) /\
  (~ (0 <= size <= Py.len raw_pcd)%Z ->
   transform_points choice T raw_pcd keep_prob = Py.raise Py.ValueError).
Proof.
  intros Hc HT size.
  destruct (Hc (length raw_pcd) size) as [Hok Hbad]; split; intros Hs.
  - destruct (Hok Hs) as (idx & Hdraw & Hlen & Hnd & Hlt).
    exists idx; repeat split; try assumption.
    apply transform_points_of_draw; assumption.
  - unfold transform_points; fold size; rewrite (Hbad Hs); reflexivity.
Qed.


Lemma int_of_empty (keep_prob : Q) : Py.int (keep_prob * inject_Z 0)%Q = 0%Z.
Proof.
  unfold Py.int; simpl; rewrite Z.mul_0_r; apply Z.quot_0_l.
  discriminate.
Qed.

(** X8.  On an empty cloud [transform_points] returns the empty array,
    whatever the keep probability. *)
Theorem transform_points_empty
        (choice : nat -> Z -> Py.res (list nat)) (T : matrix A) (keep_prob : Q) :
  choice_contract choice ->
  ncols T = 4%nat ->
  transform_points choice T [] keep_prob = Py.ret [].
Proof.
  intros Hc HT.
  destruct (@transform_points_cases choice T [] keep_prob Hc HT) as [Hok _].
  unfold Py.len in Hok; simpl in Hok; rewrite int_of_empty in Hok.
  destruct Hok as (idx & Hlen & _ & _ & Hr); [lia|].
  destruct idx; [exact Hr | discriminate Hlen].
Qed.

Lemma transform_points_width_error
      (choice : nat -> Z -> Py.res (list nat)) (T : matrix A)
      (raw_pcd : list (raw_point A)) (keep_prob : Q) :
  choice_contract choice ->
  ncols T <> 4%nat ->
  (0 <= Py.int (keep_prob * inject_Z (Py.len raw_pcd))%Q <= Py.len raw_pcd)%Z ->
  transform_points choice T raw_pcd keep_prob = Py.raise Py.ValueError.
Proof.
  intros Hc HT Hs.
  destruct (Hc (length raw_pcd) (Py.int (keep_prob * inject_Z (Py.len raw_pcd))%Q))
    as [Hok _].
  destruct (Hok Hs) as (idx & Hdraw & Hlen & Hnd & Hlt).
  unfold transform_points; rewrite Hdraw; simpl Py.bind.
  rewrite take_rows_in_range by (rewrite length_map; exact Hlt); simpl Py.bind.
  unfold vstack, nrows.
  replace (ncols (transposeW 3 (map (fun i => nth i (map (fun p => [px p; py p; pz p]) raw_pcd) []) idx)))
    with (length idx) by (simpl; unfold col; rewrite !length_map; reflexivity).
  unfold ones; rewrite repeat_length, length_map, Nat.eqb_refl; simpl Py.bind.
  unfold matmul, nrows; simpl Datatypes.length.
  destruct (Nat.eqb_spec (ncols T) 4) as [E|_]; [contradiction | reflexivity].
Qed.



(** X9.  A transform with rows that do not have four entries is rejected: when
    the draw succeeds, [transform_points] raises [ValueError], also on an
    empty cloud. *)
Theorem transform_points_wrong_width
        (choice : nat -> Z -> Py.res (list nat)) (T : matrix A)
        (raw_pcd : list (raw_point A)) (keep_prob : Q) :
  choice_contract choice ->
  T <> [] ->
  ncols T <> 4%nat ->
  (0 <= Py.int (keep_prob * inject_Z (Py.len raw_pcd))%Q <= Py.len raw_pcd)%Z ->
  transform_points choice T raw_pcd keep_prob = Py.raise Py.ValueError.
Proof. intros Hc _; apply transform_points_width_error; exact Hc. Qed.

End TransformPointsExtras.


Lemma transform_points_empty_witness :
  VisUtils.transform_points VisUtils.draw_ascending VisUtils.T_identity [] (1 # 2)%Q
  = Py.ret [].
Proof.
  apply (@transform_points_empty Q _ VisUtils.draw_ascending VisUtils.T_identity
           (1 # 2)%Q draw_ascending_contract eq_refl).
Defined.

Lemma transform_points_wrong_width_witness :
  VisUtils.transform_points VisUtils.draw_ascending
                            [[1; 0; 0]; [0; 1; 0]; [0; 0; 1]]%Q
                            VisUtils.two_points 1%Q
  = Py.raise Py.ValueError.
Proof.
  apply (@transform_points_wrong_width Q _ VisUtils.draw_ascending
           [[1; 0; 0]; [0; 1; 0]; [0; 0; 1]]%Q VisUtils.two_points 1%Q
           draw_ascending_contract).
  - discriminate.
  - discriminate.
  - vm_compute; split; discriminate.
Defined.

(** X10.  With a transform whose bottom row is [0, 0, 0, 1], every row that
    [transform_points] returns has four components, the last equal to 1. *)
Theorem transform_points_homogeneous
        (choice : nat -> Z -> Py.res (list nat)) (r1 r2 r3 : list Q)
        (raw_pcd : list (VisUtils.raw_point Q)) (keep_prob : Q) (rows : matrix Q) :
  VisUtils.choice_contract choice ->
  length r1 = 4%nat ->
  VisUtils.transform_points choice [r1; r2; r3; [0; 0; 0; 1]%Q] raw_pcd keep_prob
  = Py.ret rows ->
  Forall (fun row => length row = 4%nat /\ (nth 3 row 0 == 1)%Q) rows.
Proof.
  intros Hc Hr1 Hret.
  destruct (@transform_points_cases Q _ choice [r1; r2; r3; [0; 0; 0; 1]%Q]
              raw_pcd keep_prob Hc Hr1) as [Hok Hbad].
  destruct (Z_le_dec 0 (Py.int (keep_prob * inject_Z (Py.len raw_pcd))%Q)) as [H0|H0];
    [destruct (Z_le_dec (Py.int (keep_prob * inject_Z (Py.len raw_pcd))%Q) (Py.len raw_pcd))
       as [H1|H1]|].
  - destruct (Hok (conj H0 H1)) as (idx & _ & _ & _ & Hr).
    rewrite Hr in Hret; injection Hret as <-.
    apply Forall_forall; intros row Hin.
    apply in_map_iff in Hin; destruct Hin as (i & <- & _).
    split; [reflexivity|].
    unfold VisUtils.apply_T, dot; simpl. ring.
  - rewrite Hbad in Hret by lia; discriminate.
  - rewrite Hbad in Hret by lia; discriminate.
Qed.

Lemma transform_points_homogeneous_witness :
  Forall (fun row => length row = 4%nat /\ (nth 3 row 0 == 1)%Q)
         [[11; 22; 33; 1]; [14; 25; 36; 1]]%Q.
Proof.
  apply (@transform_points_homogeneous VisUtils.draw_ascending
           [1; 0; 0; 10]%Q [0; 1; 0; 20]%Q [0; 0; 1; 30]%Q
           VisUtils.two_points 1%Q _ draw_ascending_contract eq_refl).
  vm_compute; reflexivity.
Defined.

(** ** Pose resolver *)

Section PoseExtras.
Import VisUtils.
Local Open Scope Q_scope.

Lemma matmul_error {A : Type} `{Scalar A} (M N : matrix A) (e : Py.exn) :
  matmul M N = inl e -> e = Py.ValueError.
Proof.
  unfold matmul; destruct (Nat.eqb _ _); [discriminate|].
  intros Hm; injection Hm as <-; reflexivity.
Qed.

Lemma concatenate1_error {A : Type} `{Scalar A} (M N : matrix A) (e : Py.exn) :
  concatenate1 M N = inl e -> e = Py.ValueError.
Proof.
  unfold concatenate1; destruct (Nat.eqb _ _); [discriminate|].
  intros Hm; injection Hm as <-; reflexivity.
Qed.

Lemma concatenate0_error {A : Type} `{Scalar A} (M N : matrix A) (e : Py.exn) :
  concatenate0 M N = inl e -> e = Py.ValueError.
Proof.
  unfold concatenate0; destruct (Nat.eqb _ _); [discriminate|].
  intros Hm; injection Hm as <-; reflexivity.
Qed.

Lemma from_quat_error (quat : list Q) (e : Py.exn) :
  Extern.from_quat_as_matrix quat = inl e -> e = Py.ValueError.
Proof.
  unfold Extern.from_quat_as_matrix.
  destruct quat as [|x [|y [|z [|w [|v quat]]]]];
    try (intros Hm; injection Hm as <-; reflexivity).
  destruct (Qeq_bool _ 0); [|discriminate].
  intros Hm; injection Hm as <-; reflexivity.
Qed.

(** X11.  [to_T] puts a 3x3 rotation and a 3x1 translation into a 4x4
    transform: the upper left block is the rotation, the last column of the
    first three rows the translation, the bottom row [0, 0, 0, 1].  When the
    two arguments differ in their number of rows it raises [ValueError]. *)
Theorem to_T_layout (C r : matrix Q) :
  (shape C 3 3 -> shape r 3 1 ->
   exists T,
     to_T C r = Py.ret T /\ shape T 4 4 /\
     block 3 3 T = C /\
     map (fun row => [nth 3 row 0]) (firstn 3 T) = r /\
     nth 3 T [] = [0; 0; 0; 1]) /\
  (length C <> length r -> to_T C r = Py.raise Py.ValueError).
Proof.
  split.
  - intros HC Hr.
    destruct (shape33_inv HC) as (a & b & c & d & e & f & g & h & i & ->).
    destruct (shape31_inv Hr) as (x & y & z & ->).
    eexists; split; [reflexivity|].
    split; [split; [reflexivity | repeat constructor]|].
    repeat split; reflexivity.
  - intros Hl; unfold to_T, concatenate1, nrows.
    destruct (Nat.eqb_spec (length C) (length r)) as [E|_]; [contradiction|reflexivity].
Qed.

Lemma to_T_layout_witness :
  (exists T,
     to_T [[0; 1; 0]; [-1 # 1; 0; 0]; [0; 0; 1]] [[1]; [2]; [3]] = Py.ret T /\
     shape T 4 4 /\
     block 3 3 T = [[0; 1; 0]; [-1 # 1; 0; 0]; [0; 0; 1]] /\
     map (fun row => [nth 3 row 0]) (firstn 3 T) = [[1]; [2]; [3]] /\
     nth 3 T [] = [0; 0; 0; 1]) /\
  to_T [[1; 0; 0]; [0; 1; 0]; [0; 0; 1]] [[1]; [2]] = Py.raise Py.ValueError.
Proof.
  split.
  - apply (proj1 (to_T_layout [[0; 1; 0]; [-1 # 1; 0; 0]; [0; 0; 1]] [[1]; [2]; [3]]));
      (split; [reflexivity | repeat constructor]).
  - apply (proj2 (to_T_layout [[1; 0; 0]; [0; 1; 0]; [0; 0; 1]] [[1]; [2]])).
    discriminate.
Defined.

Variable from_quat_as_matrix : list Q -> Py.res (matrix Q).
Variable linalg_inv : matrix Q -> Py.res (matrix Q).

(** X12.  With the default extrinsic, a 3x1 position and conversions that
    return 3x3 matrices, [velodyne_frame_from_imu] returns a 4x4 transform
    whose bottom row is [0, 0, 0, 1] and a 3x3 yaw-only rotation, and the
    transform sends the position of the IMU to the point (0, 0, -0.45) of
    the Velodyne frame, whatever the heading. *)
Theorem velodyne_frame_from_imu_default_layout
        (q0 q1 q2 q3 : Q) (r_io C_io C_io_yaw : matrix Q) :
  shape r_io 3 1 ->
  from_quat_as_matrix [q1; q2; q3; - q0] = Py.ret C_io ->
  from_quat_as_matrix [0; 0; q3; - q0] = Py.ret C_io_yaw ->
  shape C_io 3 3 ->
  shape C_io_yaw 3 3 ->
  exists T_vo C_vo_yaw p,
    velodyne_frame_from_imu from_quat_as_matrix linalg_inv [q0; q1; q2; q3] r_io None
    = Py.ret (T_vo, C_vo_yaw) /\
    shape T_vo 4 4 /\
    shape C_vo_yaw 3 3 /\
    Forall2 Qeq (nth 3 T_vo []) [0; 0; 0; 1] /\
    matmul T_vo (r_io ++ [[1]]) = Py.ret p /\
    Extern.mat_eq p [[0]; [0]; [- (45 # 100)]; [1]].
Proof.
  intros Hr HC Hyaw HsC Hsyaw.
  destruct (shape31_inv Hr) as (x & y & z & ->).
  destruct (shape33_inv HsC) as (a & b & c & d & e & f & g & h & i & ->).
  destruct (shape33_inv Hsyaw) as (a' & b' & c' & d' & e' & f' & g' & h' & i' & ->).
  unfold velodyne_frame_from_imu; rewrite reorder_heading_value; simpl Py.bind.
  rewrite HC; simpl Py.bind. rewrite Hyaw; simpl Py.bind.
  do 3 eexists; split; [reflexivity|].
  split; [split; [reflexivity | repeat constructor]|].
  split; [split; [reflexivity | repeat constructor]|].
  split; [unfold dot; simpl; repeat constructor; ring|].
  split; [reflexivity|].
  unfold Extern.mat_eq, dot; simpl.
  repeat (apply Forall2_cons || apply Forall2_nil); ring.
Qed.

(** X13.  A heading with fewer than three components makes
    [velodyne_frame_from_imu] raise [IndexError], before any conversion is
    attempted. *)
Theorem velodyne_frame_from_imu_short_heading
        (raw_heading : list Q) (r_io : matrix Q) (T_iv : option (matrix Q)) :
  (length raw_heading < 3)%nat ->
  velodyne_frame_from_imu from_quat_as_matrix linalg_inv raw_heading r_io T_iv
  = Py.raise Py.IndexError.
Proof.
  intros Hl.
  destruct raw_heading as [|a [|b [|c rest]]]; simpl in Hl; try lia; reflexivity.
Qed.

End PoseExtras.

Lemma velodyne_frame_from_imu_default_layout_witness :
  exists T_vo C_vo_yaw p,
    velodyne_frame_from_imu_exact [1; 0; 0; 0]%Q [[1]; [2]; [3]]%Q None
    = Py.ret (T_vo, C_vo_yaw) /\
    shape T_vo 4 4 /\
    shape C_vo_yaw 3 3 /\
    Forall2 Qeq (nth 3 T_vo []) [0; 0; 0; 1]%Q /\
    matmul T_vo ([[1]; [2]; [3]] ++ [[1]])%Q = Py.ret p /\
    Extern.mat_eq p [[0]; [0]; [- (45 # 100)]; [1]]%Q.
Proof.
  apply (@velodyne_frame_from_imu_default_layout
           Extern.from_quat_as_matrix Extern.linalg_inv
           1%Q 0%Q 0%Q 0%Q [[1]; [2]; [3]]%Q
           [[1; 0; 0]; [0; 1; 0]; [0; 0; 1]]%Q
           [[1; 0; 0]; [0; 1; 0]; [0; 0; 1]]%Q).
  - split; [reflexivity | repeat constructor].
  - vm_compute; reflexivity.
  - vm_compute; reflexivity.
  - split; [reflexivity | repeat constructor].
  - split; [reflexivity | repeat constructor].
Defined.

Lemma velodyne_frame_from_imu_short_heading_witness :
  velodyne_frame_from_imu_exact [1; 0]%Q [[1]; [2]; [3]]%Q None
  = Py.raise Py.IndexError.
Proof.
  apply (@velodyne_frame_from_imu_short_heading
           Extern.from_quat_as_matrix Extern.linalg_inv [1; 0]%Q).
  simpl; lia.
Defined.

(** ** Pose resolver with the exact conversion *)

Section PoseExactExtras.
Local Open Scope Q_scope.

Ltac raises_value_error lem :=
  match goal with
  | |- Py.bind ?m _ = _ =>
      let e := fresh "e" in let v := fresh "v" in let E := fresh "E" in
      destruct m as [e|v] eqn:E;
      [apply lem in E; subst e; reflexivity | cbn [Py.bind Py.ret]]
  end.

Lemma zero_norm_yaw (q0 q3 : Q) :
  q0 == 0 -> q3 == 0 ->
  Extern.from_quat_as_matrix [0; 0; q3; - q0] = Py.raise Py.ValueError.
Proof.
  intros H0 H3; unfold Extern.from_quat_as_matrix.
  replace (Qeq_bool (0 * 0 + 0 * 0 + q3 * q3 + - q0 * - q0) 0) with true; [reflexivity|].
  symmetry; apply Qeq_bool_iff; rewrite H0, H3; reflexivity.
Qed.

Lemma extrinsic_default (linalg_inv : matrix Q -> Py.res (matrix Q)) :
  exists T_vi C_vi, VisUtils.extrinsic linalg_inv None = Py.ret (T_vi, C_vi).
Proof. do 2 eexists; reflexivity. Qed.

(** X14.  A heading whose first and last components are both zero cannot
    be resolved: the yaw heading [(0, 0, q3, -q0)] has norm zero, and with
    the default extrinsic [velodyne_frame_from_imu] raises [ValueError],
    whatever the other two components and the position. *)
Theorem velodyne_frame_from_imu_zero_yaw
        (q0 q1 q2 q3 : Q) (r_io : matrix Q) :
  q0 == 0 -> q3 == 0 ->
  velodyne_frame_from_imu_exact [q0; q1; q2; q3] r_io None = Py.raise Py.ValueError.
Proof.
  intros H0 H3.
  unfold velodyne_frame_from_imu_exact, VisUtils.velodyne_frame_from_imu.
  rewrite reorder_heading_value; cbn [Py.bind Py.ret].
  raises_value_error from_quat_error.
  raises_value_error (@matmul_error Q _).
  raises_value_error (@concatenate1_error Q _).
  raises_value_error (@concatenate0_error Q _).
  destruct (extrinsic_default Extern.linalg_inv) as (T_vi & C_vi & ->).
  cbn [Py.bind Py.ret].
  raises_value_error (@matmul_error Q _).
  rewrite yaw_heading_value; cbn [Py.bind Py.ret].
  rewrite (zero_norm_yaw H0 H3); reflexivity.
Qed.

Lemma Qmult_opp_opp_eq (a b : Q) : Qmult (Qopp a) (Qopp b) = Qmult a b.
Proof.
  destruct a as [na da], b as [nb db]; unfold Qmult, Qopp; simpl.
  rewrite Z.mul_opp_opp; reflexivity.
Qed.

Lemma from_quat_negated (x y z w : Q) :
  Extern.from_quat_as_matrix [- x; - y; - z; - w]
  = Extern.from_quat_as_matrix [x; y; z; w].
Proof.
  unfold Extern.from_quat_as_matrix; rewrite !Qmult_opp_opp_eq; reflexivity.
Qed.

(** X15.  A heading and its negation resolve to the same pose:
    [velodyne_frame_from_imu] returns the same result, or raises the same
    exception, for [(q0, q1, q2, q3)] and [(-q0, -q1, -q2, -q3)]. *)
Theorem velodyne_frame_from_imu_negated_heading
        (q0 q1 q2 q3 : Q) (r_io : matrix Q) (T_iv : option (matrix Q)) :
  velodyne_frame_from_imu_exact [- q0; - q1; - q2; - q3] r_io T_iv
  = velodyne_frame_from_imu_exact [q0; q1; q2; q3] r_io T_iv.
Proof.
  unfold velodyne_frame_from_imu_exact, VisUtils.velodyne_frame_from_imu.
  rewrite !reorder_heading_value; cbn [Py.bind Py.ret].
  rewrite (from_quat_negated q1 q2 q3 (- q0)).
  destruct (Extern.from_quat_as_matrix [q1; q2; q3; - q0]) as [e|C_io]; [reflexivity|].
  cbn [Py.bind Py.ret].
  destruct (matmul C_io r_io) as [e|m]; [reflexivity|]; cbn [Py.bind Py.ret].
  destruct (concatenate1 C_io (neg m)) as [e|T1]; [reflexivity|]; cbn [Py.bind Py.ret].
  destruct (concatenate0 T1 [[0; 0; 0; 1]]) as [e|T_io]; [reflexivity|]; cbn [Py.bind Py.ret].
  destruct (VisUtils.extrinsic Extern.linalg_inv T_iv) as [e|[T_vi C_vi]];
    [reflexivity|]; cbn [Py.bind Py.ret].
  destruct (matmul T_vi T_io) as [e|T_vo]; [reflexivity|]; cbn [Py.bind Py.ret].
  rewrite !yaw_heading_value; cbn [Py.bind Py.ret].
  change (Extern.from_quat_as_matrix [0; 0; - q3; - - q0])
    with (Extern.from_quat_as_matrix [- 0; - 0; - q3; - - q0]).
  rewrite (from_quat_negated 0 0 q3 (- q0)); reflexivity.
Qed.

(** X16.  [get_device_pose] needs exactly three position values: with a
    heading of four components and any other number of position values it
    raises [ValueError]. *)
Theorem get_device_pose_position_length
        (q0 q1 q2 q3 : Q) (device_position : list Q) (T_iv : option (matrix Q)) :
  length device_position <> 3%nat ->
  VisUtils.get_device_pose Extern.from_quat_as_matrix Extern.linalg_inv
                           [q0; q1; q2; q3] device_position T_iv
  = Py.raise Py.ValueError.
Proof.
  intros Hl.
  unfold VisUtils.get_device_pose, VisUtils.velodyne_frame_from_imu.
  rewrite reorder_heading_value; cbn [Py.bind Py.ret].
  unfold Extern.from_quat_as_matrix.
  destruct (Qeq_bool _ 0); [reflexivity|]; cbn [Py.bind Py.ret].
  unfold matmul at 1, nrows, transpose, transposeW; simpl ncols.
  rewrite length_map, length_seq.
  destruct (Nat.eqb_spec 3 (length device_position)) as [E|_]; [|reflexivity].
  exfalso; apply Hl; symmetry; exact E.
Qed.

End PoseExactExtras.

Lemma velodyne_frame_from_imu_zero_yaw_witness :
  velodyne_frame_from_imu_exact [0; 1; 0; 0]%Q [[1]; [2]; [3]]%Q None
  = Py.raise Py.ValueError.
Proof.
  apply (@velodyne_frame_from_imu_zero_yaw 0 1 0 0 [[1]; [2]; [3]])%Q; reflexivity.
Defined.

Lemma get_device_pose_position_length_witness :
  VisUtils.get_device_pose Extern.from_quat_as_matrix Extern.linalg_inv
                           [1; 0; 0; 0]%Q [1; 2]%Q None
  = Py.raise Py.ValueError.
Proof.
  apply (@get_device_pose_position_length 1 0 0 0 [1; 2] None)%Q.
  discriminate.
Defined.

(** ** Bilinear resampler *)

Section ResamplerExtras.
Import Resampler.







End ResamplerExtras.

Section ResamplerInterior.
Import Resampler.
Local Open Scope Q_scope.









End ResamplerInterior.





Section ResamplerBatch.
Import Resampler.




End ResamplerBatch.


(** ** Bounding boxes *)

Lemma mapM_Forall2 {A B : Type} (f : A -> Py.res B) (l : list A) (bs : list B) :
  Py.mapM f l = Py.ret bs -> Forall2 (fun a b => f a = Py.ret b) l bs.
Proof.
  revert bs; induction l as [|a l IH]; simpl; intros bs Hm.
  - injection Hm as <-; constructor.
  - bind_inv Hm b Hb. bind_inv Hm bs' Hbs. injection Hm as <-.
    constructor; [exact Hb | apply IH; exact Hbs].
Qed.

Lemma mapM_returns {A B : Type} (f : A -> Py.res B) (l : list A) :
  Forall (fun a => exists b, f a = Py.ret b) l -> exists bs, Py.mapM f l = Py.ret bs.
Proof.
  induction 1 as [|a l [b Hb] _ [bs Hbs]]; simpl.
  - exists []; reflexivity.
  - exists (b :: bs); rewrite Hb; simpl; rewrite Hbs; reflexivity.
Qed.

Lemma mapM_first_error {A B : Type} (f : A -> Py.res B) (a : A) (l : list A) (e : Py.exn) :
  f a = Py.raise e -> Py.mapM f (a :: l) = Py.raise e.
Proof. intros Ha; simpl; rewrite Ha; reflexivity. Qed.

Lemma Forall2_In_left {A B : Type} (P : A -> B -> Prop) (l : list A) (bs : list B) (a : A) :
  Forall2 P l bs -> In a l -> exists b, In b bs /\ P a b.
Proof.
  induction 1 as [|a' b' l' bs' Hab _ IH]; intros Hin; [destruct Hin|].
  destruct Hin as [<- | Hin].
  - exists b'; split; [left; reflexivity | exact Hab].
  - destruct (IH Hin) as (b & Hb & Hp); exists b; split; [right; exact Hb | exact Hp].
Qed.

Lemma reshape_3_1_inv {A : Type} (a : list A) (M : matrix A) :
  SensorFrame.reshape_3_1 a = Py.ret M ->
  length a = 3%nat /\ M = map (fun v => [v]) a.
Proof.
  destruct a as [|x [|y [|z [|w a]]]]; simpl; try discriminate.
  intros Hm; injection Hm as <-; split; reflexivity.
Qed.

Section BoxExtras.
Import SensorFrame.
Context {A : Type} `{Scalar A}.
Variable Box : Type.
Variable BoundingBox2D : matrix A -> matrix A -> matrix A -> string -> Box.
Variable rot_z : A -> matrix A.
Variable rot_to_yaw_pitch_roll : matrix A -> Py.res (A * A * A).

Lemma transform_label_inv (T C_yaw : matrix A) (l : raw_label A) (box : Box) :
  transform_label BoundingBox2D rot_z rot_to_yaw_pitch_roll T C_yaw l = Py.ret box ->
  exists m rotation,
    matmul T (transpose [position l ++ [one]]) = Py.ret m /\
    matmul C_yaw (rot_z (yaw l)) = Py.ret rotation /\
    length (dimensions l) = 3%nat /\
    box = BoundingBox2D (firstn 3 m) rotation (map (fun v => [v]) (dimensions l)) (label l).
Proof.
  unfold transform_label; intros Hb.
  bind_inv Hb m Hm. bind_inv Hb rotation Hrot. bind_inv Hb ypr Hypr.
  bind_inv Hb extent Hext. injection Hb as <-.
  destruct (reshape_3_1_inv _ Hext) as [Hlen ->].
  exists m, rotation; repeat split; assumption.
Qed.

(** X21.  When [transform_bounding_boxes] returns, it returns one box per
    label, in the order of the labels; the box of a label is built from the
    first three rows of [T . [position; 1]], the rotation
    [C_yaw . rot_z(yaw)], the three dimensions as a column, and the label's
    name. *)
Theorem transform_bounding_boxes_per_label
        (T C_yaw : matrix A) (raw_labels : list (raw_label A)) (boxes : list Box) :
  transform_bounding_boxes BoundingBox2D rot_z rot_to_yaw_pitch_roll T C_yaw raw_labels
  = Py.ret boxes ->
  Forall2 (fun l box =>
             exists m rotation,
               matmul T (transpose [position l ++ [one]]) = Py.ret m /\
               matmul C_yaw (rot_z (yaw l)) = Py.ret rotation /\
               length (dimensions l) = 3%nat /\
               box = BoundingBox2D (firstn 3 m) rotation
                                   (map (fun v => [v]) (dimensions l)) (label l))
          raw_labels boxes.
Proof.
  intros Hb; apply mapM_Forall2 in Hb.
  induction Hb as [|l box ls bs Hl _ IH]; constructor; [|exact IH].
  apply transform_label_inv; exact Hl.
Qed.

(** X22.  One malformed label fails the whole call: when a label of the
    list does not have exactly three dimensions, or its position does not
    have one value less than the transform has columns,
    [transform_bounding_boxes] returns no boxes at all. *)
Theorem transform_bounding_boxes_all_or_nothing
        (T C_yaw : matrix A) (raw_labels : list (raw_label A)) (l : raw_label A) :
  In l raw_labels ->
  length (dimensions l) <> 3%nat \/ S (length (position l)) <> ncols T ->
  forall boxes,
    transform_bounding_boxes BoundingBox2D rot_z rot_to_yaw_pitch_roll T C_yaw raw_labels
    <> Py.ret boxes.
Proof.
  intros Hin Hbad boxes Hb.
  apply mapM_Forall2 in Hb.
  destruct (@Forall2_In_left _ _ _ _ _ l Hb Hin) as (box & _ & Hl).
  destruct (transform_label_inv _ _ _ Hl) as (m & rotation & Hm & _ & Hdim & _).
  destruct Hbad as [Hd | Hp]; [exact (Hd Hdim)|].
  unfold matmul, nrows, transpose, transposeW in Hm; simpl ncols in Hm.
  rewrite length_map, length_seq, length_app in Hm; simpl in Hm.
  destruct (Nat.eqb_spec (ncols T) (length (position l) + 1)) as [E|_]; [|discriminate].
  apply Hp; rewrite E; lia.
Qed.

End BoxExtras.

Section BoxRealExtras.
Import SensorFrame.
Variable Box : Type.
Variable BoundingBox2D : matrix R -> matrix R -> matrix R -> string -> Box.

Lemma transform_label_vis_returns (T C_yaw : matrix R) (l : raw_label R) :
  ncols T = 4%nat -> shape C_yaw 3 3 ->
  length (position l) = 3%nat -> length (dimensions l) = 3%nat ->
  exists box,
    transform_label BoundingBox2D VisUtils.rot_z
      (fun C => VisUtils.rot_to_yaw_pitch_roll C VisUtils.eps_default) T C_yaw l
    = Py.ret box.
Proof.
  intros HT HC Hp Hd.
  destruct (shape33_inv_real HC) as (a & b & c & d & e & f & g & h & i & ->).
  destruct l as [pos dims y lbl]; simpl in Hp, Hd.
  destruct (length3_inv _ Hp) as (p1 & p2 & p3 & ->).
  destruct (length3_inv _ Hd) as (d1 & d2 & d3 & ->).
  unfold transform_label; cbn [position dimensions yaw label].
  unfold matmul at 1; simpl nrows; rewrite HT; cbn [Nat.eqb Py.bind Py.ret].
  unfold matmul at 1, VisUtils.rot_z; simpl nrows; simpl ncols.
  cbn [Nat.eqb Py.bind Py.ret].
  match goal with
  | |- context [VisUtils.rot_to_yaw_pitch_roll ?P _] =>
      destruct (@rot_to_yaw_pitch_roll_returns P VisUtils.eps_default) as [ypr ->];
      [split; [reflexivity | repeat constructor]|]
  end.
  cbn [Py.bind Py.ret reshape_3_1]; eexists; reflexivity.
Qed.

Lemma transform_bounding_boxes_vis_total
      (T C_yaw : matrix R) (raw_labels : list (raw_label R)) :
  ncols T = 4%nat ->
  shape C_yaw 3 3 ->
  Forall (fun l => length (position l) = 3%nat /\ length (dimensions l) = 3%nat)
         raw_labels ->
  exists boxes,
    transform_bounding_boxes_vis BoundingBox2D T C_yaw raw_labels = Py.ret boxes /\
    length boxes = length raw_labels.
Proof.
  intros HT HC Hl.
  assert (Hall : Forall (fun l => exists box,
             transform_label BoundingBox2D VisUtils.rot_z
               (fun C => VisUtils.rot_to_yaw_pitch_roll C VisUtils.eps_default) T C_yaw l
             = Py.ret box) raw_labels).
  { apply Forall_forall; intros l Hin.
    rewrite Forall_forall in Hl; destruct (Hl l Hin) as [Hp Hd].
    apply transform_label_vis_returns; assumption. }
  destruct (mapM_returns _ Hall) as [boxes Hb].
  exists boxes; split; [exact Hb|].
  apply mapM_Forall2 in Hb; symmetry; eapply Forall2_length; exact Hb.
Qed.

(** X23.  On real arrays, with a transform of four columns, a 3x3 yaw
    rotation and labels that each have three position values and three
    dimensions, [transform_bounding_boxes] of [python/vis/vis_utils.py]
    raises nothing: it returns the boxes, whatever the numbers are. *)
Theorem transform_bounding_boxes_vis_returns
        (T C_yaw : matrix R) (raw_labels : list (raw_label R)) :
  ncols T = 4%nat ->
  shape C_yaw 3 3 ->
  Forall (fun l => length (position l) = 3%nat /\ length (dimensions l) = 3%nat)
         raw_labels ->
  exists boxes,
    transform_bounding_boxes_vis BoundingBox2D T C_yaw raw_labels = Py.ret boxes /\
    length boxes = length raw_labels.
Proof. apply transform_bounding_boxes_vis_total. Qed.

(** X24.  The decomposition whose result is thrown away can still fail the
    call: with a yaw rotation of three columns but fewer than three rows,
    the product [C_yaw . rot_z(yaw)] has fewer than three rows, and
    [transform_bounding_boxes] of [python/vis/vis_utils.py] raises
    [IndexError] on the first label. *)
Theorem transform_bounding_boxes_vis_short_rotation
        (T C_yaw : matrix R) (l : raw_label R) (raw_labels : list (raw_label R)) :
  ncols T = 4%nat ->
  length (position l) = 3%nat ->
  ncols C_yaw = 3%nat ->
  (length C_yaw < 3)%nat ->
  transform_bounding_boxes_vis BoundingBox2D T C_yaw (l :: raw_labels)
  = Py.raise Py.IndexError.
Proof.
  intros HT Hp HC Hrows.
  unfold transform_bounding_boxes_vis, transform_bounding_boxes.
  apply mapM_first_error.
  destruct l as [pos dims y lbl]; simpl in Hp.
  destruct (length3_inv _ Hp) as (p1 & p2 & p3 & ->).
  unfold transform_label; cbn [position dimensions yaw label].
  unfold matmul at 1; simpl nrows; rewrite HT; cbn [Nat.eqb Py.bind Py.ret].
  unfold matmul at 1, VisUtils.rot_z; simpl nrows; rewrite HC.
  cbn [Nat.eqb Py.bind Py.ret].
  rewrite rot_to_yaw_pitch_roll_short by (rewrite length_map; exact Hrows).
  reflexivity.
Qed.

End BoxRealExtras.


Lemma label_car_shape :
  Forall (fun l => length (SensorFrame.position l) = 3%nat /\
                   length (SensorFrame.dimensions l) = 3%nat)
         [SensorFrame.label_car].
Proof. repeat constructor. Qed.

Lemma identity3_shape : shape SensorFrame.identity3 3 3.
Proof. split; [reflexivity | repeat constructor]. Qed.

Lemma transform_bounding_boxes_per_label_witness :
  exists boxes : list (matrix R * matrix R * matrix R * string),
    Forall2 (fun l box =>
               exists m rotation,
                 matmul SensorFrame.T_identity_real
                        (transpose [SensorFrame.position l ++ [one]]) = Py.ret m /\
                 matmul SensorFrame.identity3 (VisUtils.rot_z (SensorFrame.yaw l))
                 = Py.ret rotation /\
                 length (SensorFrame.dimensions l) = 3%nat /\
                 box = SensorFrame.box_tuple (firstn 3 m) rotation
                         (map (fun v => [v]) (SensorFrame.dimensions l))
                         (SensorFrame.label l))
            [SensorFrame.label_car] boxes.
Proof.
  destruct (@transform_bounding_boxes_vis_total _ (@SensorFrame.box_tuple R)
              SensorFrame.T_identity_real SensorFrame.identity3 [SensorFrame.label_car]
              eq_refl identity3_shape label_car_shape) as (boxes & Hb & _).
  exists boxes.
  exact (@transform_bounding_boxes_per_label R _ _ (@SensorFrame.box_tuple R)
           VisUtils.rot_z
           (fun C => VisUtils.rot_to_yaw_pitch_roll C VisUtils.eps_default)
           SensorFrame.T_identity_real SensorFrame.identity3
           [SensorFrame.label_car] boxes Hb).
Defined.

Lemma transform_bounding_boxes_all_or_nothing_witness :
  exists e,
    SensorFrame.transform_bounding_boxes (@SensorFrame.box_tuple R) VisUtils.rot_z
      (fun C => VisUtils.rot_to_yaw_pitch_roll C VisUtils.eps_default)
      SensorFrame.T_identity_real SensorFrame.identity3
      [SensorFrame.label_car; SensorFrame.label_short]
    = Py.raise e.
Proof.
  destruct (SensorFrame.transform_bounding_boxes (@SensorFrame.box_tuple R) VisUtils.rot_z
              (fun C => VisUtils.rot_to_yaw_pitch_roll C VisUtils.eps_default)
              SensorFrame.T_identity_real SensorFrame.identity3
              [SensorFrame.label_car; SensorFrame.label_short]) as [e | boxes] eqn:E.
  - exists e; reflexivity.
  - exfalso.
    apply (@transform_bounding_boxes_all_or_nothing R _ _ (@SensorFrame.box_tuple R)
             VisUtils.rot_z
             (fun C => VisUtils.rot_to_yaw_pitch_roll C VisUtils.eps_default)
             SensorFrame.T_identity_real SensorFrame.identity3
             [SensorFrame.label_car; SensorFrame.label_short] SensorFrame.label_short)
      with (boxes := boxes).
    + right; left; reflexivity.
    + left; simpl; discriminate.
    + exact E.
Defined.

Lemma transform_bounding_boxes_vis_returns_witness :
  exists boxes,
    SensorFrame.transform_bounding_boxes_vis (@SensorFrame.box_tuple R)
      SensorFrame.T_identity_real SensorFrame.identity3 [SensorFrame.label_car]
    = Py.ret boxes /\
    length boxes = 1%nat.
Proof.
  apply (@transform_bounding_boxes_vis_returns _ (@SensorFrame.box_tuple R)
           SensorFrame.T_identity_real SensorFrame.identity3 [SensorFrame.label_car]
           eq_refl identity3_shape label_car_shape).
Defined.

Lemma transform_bounding_boxes_vis_short_rotation_witness :
  SensorFrame.transform_bounding_boxes_vis (@SensorFrame.box_tuple R)
    SensorFrame.T_identity_real SensorFrame.C_yaw_two_rows
    [SensorFrame.label_car; SensorFrame.label_short]
  = Py.raise Py.IndexError.
Proof.
  apply (@transform_bounding_boxes_vis_short_rotation _ (@SensorFrame.box_tuple R)
           SensorFrame.T_identity_real SensorFrame.C_yaw_two_rows
           SensorFrame.label_car [SensorFrame.label_short]);
    try reflexivity.
  simpl; lia.
Defined.

(** ** Orchestration: [transform_data_to_sensor_frame] *)

Section OrchestrationExtras.
Variable from_quat_as_matrix : list Q -> Py.res (matrix Q).
Variable linalg_inv : matrix Q -> Py.res (matrix Q).
Variable random_choice : nat -> Z -> Py.res (list nat).
Variable Box : Type.
Variable BoundingBox2D : matrix Q -> matrix Q -> matrix Q -> string -> Box.
Variable rot_z : Q -> matrix Q.
Variable rot_to_yaw_pitch_roll : matrix Q -> Py.res (Q * Q * Q).


End OrchestrationExtras.


(** ** Dataset index: [BoreasDataset] *)

Section DictFacts.
Import Boreas.
Variable V : Type.

Lemma dict_get_set_same (d : dict V) (k : string) (v : V) :
  dict_get (dict_set d k v) k = inr v.
Proof.
  induction d as [|[k' v'] d IH]; simpl.
  - rewrite String.eqb_refl; reflexivity.
  - destruct (String.eqb k' k) eqn:E; simpl; rewrite E; [reflexivity | exact IH].
Qed.

Lemma dict_get_set_other (d : dict V) (k k' : string) (v : V) :
  k <> k' ->
  dict_get (dict_set d k v) k' = dict_get d k'.
Proof.
  intros Hne; induction d as [|[k0 v0] d IH]; simpl.
  - destruct (String.eqb_spec k k'); [contradiction | reflexivity].
  - destruct (String.eqb_spec k0 k) as [->|Hk]; simpl.
    + destruct (String.eqb_spec k k'); [contradiction | reflexivity].
    + destruct (String.eqb k0 k'); [reflexivity | exact IH].
Qed.

Lemma list_getitem_nonneg (l : list V) (i : nat) (v : V) :
  nth_error l i = Some v ->
  list_getitem l (Z.of_nat i) = inr v.
Proof.
  intros Hn.
  assert (Hi : (i < length l)%nat) by (apply nth_error_Some; congruence).
  unfold list_getitem.
  destruct (Z.ltb_spec (Z.of_nat i) 0) as [Hneg|_]; [lia|].
  destruct (Z.leb_spec 0 (Z.of_nat i)) as [_|Hbad]; [|lia].
  destruct (Z.ltb_spec (Z.of_nat i) (Z.of_nat (length l))) as [_|Hbad]; [|lia].
  simpl; rewrite Nat2Z.id, Hn; reflexivity.
Qed.

Lemma list_getitem_in_range (l : list V) (idx : Z) :
  (0 <= idx < Z.of_nat (length l))%Z ->
  exists v, nth_error l (Z.to_nat idx) = Some v /\ list_getitem l idx = inr v.
Proof.
  intros Hr.
  destruct (nth_error l (Z.to_nat idx)) as [v|] eqn:Hn.
  - exists v; split; [reflexivity|].
    rewrite <- (Z2Nat.id idx) by lia; apply list_getitem_nonneg; exact Hn.
  - apply nth_error_None in Hn; lia.
Qed.

Lemma list_getitem_negative (l : list V) (idx : Z) :
  (- Z.of_nat (length l) <= idx < 0)%Z ->
  list_getitem l idx = list_getitem l (idx + Z.of_nat (length l)).
Proof.
  intros Hr; unfold list_getitem.
  destruct (Z.ltb_spec idx 0) as [_|Hbad]; [|lia].
  destruct (Z.ltb_spec (idx + Z.of_nat (length l)) 0) as [Hbad|_]; [lia|].
  reflexivity.
Qed.

Lemma list_getitem_out_of_range (l : list V) (idx : Z) :
  (idx < - Z.of_nat (length l) \/ Z.of_nat (length l) <= idx)%Z ->
  list_getitem l idx = inl IndexError.
Proof.
  intros Hr; unfold list_getitem.
  destruct (Z.ltb_spec idx 0) as [Hn|Hn].
  - destruct (Z.leb_spec 0 (idx + Z.of_nat (length l))) as [Hbad|_]; [lia | reflexivity].
  - destruct (Z.leb_spec 0 idx) as [_|Hbad]; [|lia].
    destruct (Z.ltb_spec idx (Z.of_nat (length l))) as [Hbad|_]; [lia | reflexivity].
Qed.

End DictFacts.

Section BoreasExtras.
Import Boreas.
Variables SeqSpec Seq CameraT LidarT RadarT VisualizerT : Type.
Variable Sequence : string -> SeqSpec -> Seq.
Variable seqID : Seq -> string.
Variable camera_paths lidar_paths radar_paths : Seq -> list string.
Variable Camera : string -> CameraT.
Variable Lidar : string -> LidarT.
Variable Radar : string -> RadarT.
Variable BoreasVisualizer : Seq -> VisualizerT.


Lemma fold_root (l : list SeqSpec) (self : BoreasDataset SeqSpec Seq) :
  root (fold_left (add_sequence Sequence seqID camera_paths lidar_paths radar_paths) l self) = root self.
Proof.
  revert self; induction l as [|s l IH]; intros self; simpl; [reflexivity|].
  rewrite IH; reflexivity.
Qed.

Lemma fold_split (l : list SeqSpec) (self : BoreasDataset SeqSpec Seq) :
  split (fold_left (add_sequence Sequence seqID camera_paths lidar_paths radar_paths) l self) = split self.
Proof.
  revert self; induction l as [|s l IH]; intros self; simpl; [reflexivity|].
  rewrite IH; reflexivity.
Qed.

Lemma fold_sequences (l : list SeqSpec) (self : BoreasDataset SeqSpec Seq) :
  sequences (fold_left (add_sequence Sequence seqID camera_paths lidar_paths radar_paths) l self) = sequences self ++ map (Sequence (root self)) l.
Proof.
  revert self; induction l as [|s l IH]; intros self; simpl.
  - rewrite app_nil_r; reflexivity.
  - rewrite IH; simpl; rewrite <- app_assoc; reflexivity.
Qed.

Lemma fold_frames (l : list SeqSpec) (self : BoreasDataset SeqSpec Seq) :
  let seqs := map (Sequence (root self)) l in
  cameraFrames (fold_left (add_sequence Sequence seqID camera_paths lidar_paths radar_paths) l self) = cameraFrames self ++ concat (map camera_paths seqs) /\
  lidarFrames (fold_left (add_sequence Sequence seqID camera_paths lidar_paths radar_paths) l self) = lidarFrames self ++ concat (map lidar_paths seqs) /\
  radarFrames (fold_left (add_sequence Sequence seqID camera_paths lidar_paths radar_paths) l self) = radarFrames self ++ concat (map radar_paths seqs).
Proof.
  revert self; induction l as [|s l IH]; intros self; simpl.
  - rewrite !app_nil_r; repeat split.
  - destruct (IH (add_sequence Sequence seqID camera_paths lidar_paths radar_paths self s)) as (Hc & Hl & Hr).
    rewrite Hc, Hl, Hr; simpl; rewrite <- !app_assoc; repeat split.
Qed.

Lemma fold_seqDict_other (l : list SeqSpec) (self : BoreasDataset SeqSpec Seq) (id : string) :
  Forall (fun s => seqID (Sequence (root self) s) <> id) l ->
  dict_get (seqDict (fold_left (add_sequence Sequence seqID camera_paths lidar_paths radar_paths) l self)) id = dict_get (seqDict self) id.
Proof.
  revert self; induction l as [|s l IH]; intros self Hall; simpl; [reflexivity|].
  inversion Hall as [|? ? Hs Hl]; subst.
  rewrite IH by exact Hl.
  simpl; apply dict_get_set_other; exact Hs.
Qed.

Lemma fold_seqDict_last (pre post : list SeqSpec) (spec : SeqSpec) (self : BoreasDataset SeqSpec Seq) :
  Forall (fun s => seqID (Sequence (root self) s) <> seqID (Sequence (root self) spec))
         post ->
  dict_get (seqDict (fold_left (add_sequence Sequence seqID camera_paths lidar_paths radar_paths) (pre ++ spec :: post) self))
           (seqID (Sequence (root self) spec))
  = inr (length (sequences self) + length pre)%nat.
Proof.
  intros Hpost.
  rewrite fold_left_app; simpl fold_left.
  rewrite fold_seqDict_other
    by (simpl; rewrite fold_root; exact Hpost).
  simpl; rewrite fold_root, dict_get_set_same.
  rewrite fold_sequences, !length_app, length_map; simpl.
  f_equal; lia.
Qed.

Lemma get_seq_from_ID_last (root0 : string) (pre post : list SeqSpec) (spec : SeqSpec) :
  Forall (fun s => seqID (Sequence root0 s) <> seqID (Sequence root0 spec)) post ->
  get_seq_from_ID (init Sequence seqID camera_paths lidar_paths radar_paths
                        root0 (pre ++ spec :: post))
                  (seqID (Sequence root0 spec))
  = inr (Sequence root0 spec).
Proof.
  intros Hpost; unfold get_seq_from_ID, init.
  pose proof (@fold_seqDict_last pre post spec
                {| root := root0; split := pre ++ spec :: post;
                   cameraFrames := []; lidarFrames := []; radarFrames := [];
                   sequences := []; seqDict := [] |} Hpost) as Hd.
  simpl in Hd; rewrite Hd.
  apply list_getitem_nonneg.
  rewrite fold_sequences; simpl.
  rewrite map_app, nth_error_app2 by (rewrite length_map; lia).
  rewrite length_map, Nat.sub_diag; reflexivity.
Qed.

Lemma get_seq_from_ID_missing (root0 : string) (split0 : list SeqSpec) (id : string) :
  Forall (fun s => seqID (Sequence root0 s) <> id) split0 ->
  get_seq_from_ID (init Sequence seqID camera_paths lidar_paths radar_paths root0 split0)
                  id
  = inl (KeyError id).
Proof.
  intros Hall; unfold get_seq_from_ID, init.
  rewrite fold_seqDict_other by exact Hall; reflexivity.
Qed.

(** A list either has no element with the key, or splits at the last one. *)
Lemma split_at_last (f : SeqSpec -> string) (l : list SeqSpec) (id : string) :
  Forall (fun s => f s <> id) l \/
  exists pre spec post,
    l = pre ++ spec :: post /\ f spec = id /\ Forall (fun s => f s <> f spec) post.
Proof.
  induction l as [|s l IH].
  - left; constructor.
  - destruct IH as [Hnone | (pre & spec & post & -> & Hid & Hpost)].
    + destruct (string_dec (f s) id) as [E|N].
      * right; exists [], s, l; repeat split; [exact E | rewrite E; exact Hnone].
      * left; constructor; assumption.
    + right; exists (s :: pre), spec, post; repeat split; assumption.
Qed.

(** X26.  After [BoreasDataset(root, split)], [sequences] holds
    [Sequence(root, seqSpec)] for the entries of [split] in order, the
    three frame lists are the concatenations, in that order, of the
    sequences' camera, lidar and radar paths, and [root] and [split] are
    the arguments. *)
Theorem init_contents (root0 : string) (split0 : list SeqSpec) :
  let self := init Sequence seqID camera_paths lidar_paths radar_paths root0 split0 in
  root self = root0 /\ split self = split0 /\
  sequences self = map (Sequence root0) split0 /\
  cameraFrames self = concat (map camera_paths (sequences self)) /\
  lidarFrames self = concat (map lidar_paths (sequences self)) /\
  radarFrames self = concat (map radar_paths (sequences self)).
Proof.
  unfold init; cbv zeta.
  rewrite fold_root, fold_split, fold_sequences; simpl.
  repeat split; apply fold_frames.
Qed.

(** X27.  Looking a sequence up by its ID gives that sequence back: for an
    entry of [split] that is the last one with its ID, [get_seq_from_ID]
    returns [Sequence(root, entry)] and [get_sequence_visualizer] the
    visualizer of it.  With IDs repeated, the last entry wins. *)
Theorem get_seq_from_ID_round_trip
        (root0 : string) (pre post : list SeqSpec) (spec : SeqSpec) :
  Forall (fun s => seqID (Sequence root0 s) <> seqID (Sequence root0 spec)) post ->
  let self := init Sequence seqID camera_paths lidar_paths radar_paths
                   root0 (pre ++ spec :: post) in
  get_seq_from_ID self (seqID (Sequence root0 spec)) = inr (Sequence root0 spec) /\
  get_sequence_visualizer BoreasVisualizer self (seqID (Sequence root0 spec))
  = inr (BoreasVisualizer (Sequence root0 spec)).
Proof.
  intros Hpost self; unfold get_sequence_visualizer, self.
  rewrite get_seq_from_ID_last by exact Hpost; split; reflexivity.
Qed.

(** X28.  An ID that no sequence of the split has raises [KeyError] with
    that ID, from [get_seq_from_ID] and from [get_sequence_visualizer]. *)
Theorem get_seq_from_ID_unknown (root0 : string) (split0 : list SeqSpec) (id : string) :
  Forall (fun s => seqID (Sequence root0 s) <> id) split0 ->
  let self := init Sequence seqID camera_paths lidar_paths radar_paths root0 split0 in
  get_seq_from_ID self id = inl (KeyError id) /\
  get_sequence_visualizer BoreasVisualizer self id = inl (KeyError id).
Proof.
  intros Hall self; unfold get_sequence_visualizer, self.
  rewrite get_seq_from_ID_missing by exact Hall; split; reflexivity.
Qed.

(** X29.  On a dataset built by [BoreasDataset(root, split)],
    [get_seq_from_ID] never raises [IndexError]: every index stored in
    [seqDict] is a position of [sequences].  It returns a sequence with the
    ID asked for, or raises [KeyError]. *)
Theorem get_seq_from_ID_result (root0 : string) (split0 : list SeqSpec) (id : string) :
  let self := init Sequence seqID camera_paths lidar_paths radar_paths root0 split0 in
  (exists seq, get_seq_from_ID self id = inr seq /\ seqID seq = id /\
               In seq (sequences self)) \/
  get_seq_from_ID self id = inl (KeyError id).
Proof.
  intros self; unfold self.
  destruct (split_at_last (fun s => seqID (Sequence root0 s)) split0 id)
    as [Hnone | (pre & spec & post & -> & Hid & Hpost)].
  - right; apply get_seq_from_ID_missing; exact Hnone.
  - left; exists (Sequence root0 spec); rewrite <- Hid; repeat split.
    + apply get_seq_from_ID_last; exact Hpost.
    + unfold init; rewrite fold_sequences; simpl.
      apply in_map, in_or_app; right; left; reflexivity.
Qed.

(** X30.  Indexing agrees with iteration, for the three sensors: an index
    [0 <= idx < n] gives the frame that the generator yields at that place,
    an index [-n <= idx < 0] the same as [idx + n], and any other index
    raises [IndexError] ([n] the number of frames of the sensor). *)
Theorem get_frame_by_index (self : BoreasDataset SeqSpec Seq) (idx : Z) :
  (let n := Z.of_nat (length (cameraFrames self)) in
   ((0 <= idx < n)%Z ->
    exists c, nth_error (cam0 Camera self) (Z.to_nat idx) = Some c /\
              get_camera Camera self idx = inr c) /\
   ((- n <= idx < 0)%Z -> get_camera Camera self idx = get_camera Camera self (idx + n)) /\
   ((idx < - n \/ n <= idx)%Z -> get_camera Camera self idx = inl IndexError)) /\
  (let n := Z.of_nat (length (lidarFrames self)) in
   ((0 <= idx < n)%Z ->
    exists c, nth_error (lidar Lidar self) (Z.to_nat idx) = Some c /\
              get_lidar Lidar self idx = inr c) /\
   ((- n <= idx < 0)%Z -> get_lidar Lidar self idx = get_lidar Lidar self (idx + n)) /\
   ((idx < - n \/ n <= idx)%Z -> get_lidar Lidar self idx = inl IndexError)) /\
  (let n := Z.of_nat (length (radarFrames self)) in
   ((0 <= idx < n)%Z ->
    exists c, nth_error (radar Radar self) (Z.to_nat idx) = Some c /\
              get_radar Radar self idx = inr c) /\
   ((- n <= idx < 0)%Z -> get_radar Radar self idx = get_radar Radar self (idx + n)) /\
   ((idx < - n \/ n <= idx)%Z -> get_radar Radar self idx = inl IndexError)).
Proof.
  cbv zeta; unfold get_camera, get_lidar, get_radar, cam0, lidar, radar.
  repeat split; intros Hr;
    try (destruct (list_getitem_in_range _ Hr) as (v & Hn & Hg);
         eexists; split; [apply map_nth_error; exact Hn | rewrite Hg; reflexivity]);
    try (rewrite (list_getitem_negative _ Hr); reflexivity);
    try (rewrite (list_getitem_out_of_range _ Hr); reflexivity).
Qed.

End BoreasExtras.

Lemma get_seq_from_ID_round_trip_witness :
  let self := Boreas.record_dataset "/data/boreas/"
                [Boreas.seq_a; Boreas.seq_a2; Boreas.seq_b] in
  Boreas.get_seq_from_ID self "a" = inr Boreas.seq_a2 /\
  Boreas.get_sequence_visualizer Boreas.sr_camera self "a" = inr ["a2/c0"%string].
Proof.
  apply (@get_seq_from_ID_round_trip Boreas.seq_record Boreas.seq_record (list string)
           (fun _ spec => spec) Boreas.sr_id Boreas.sr_camera Boreas.sr_lidar
           Boreas.sr_radar Boreas.sr_camera "/data/boreas/"
           [Boreas.seq_a] [Boreas.seq_b] Boreas.seq_a2).
  repeat constructor; discriminate.
Defined.

Lemma get_seq_from_ID_unknown_witness :
  let self := Boreas.record_dataset "/data/boreas/" [Boreas.seq_a; Boreas.seq_b] in
  Boreas.get_seq_from_ID self "c" = inl (Boreas.KeyError "c") /\
  Boreas.get_sequence_visualizer Boreas.sr_camera self "c" = inl (Boreas.KeyError "c").
Proof.
  apply (@get_seq_from_ID_unknown Boreas.seq_record Boreas.seq_record (list string)
           (fun _ spec => spec) Boreas.sr_id Boreas.sr_camera Boreas.sr_lidar
           Boreas.sr_radar Boreas.sr_camera "/data/boreas/"
           [Boreas.seq_a; Boreas.seq_b] "c").
  repeat constructor; discriminate.
Defined.

Lemma get_frame_by_index_witness :
  let self := Boreas.record_dataset "/data/boreas/" [Boreas.seq_a; Boreas.seq_b] in
  (exists c, nth_error (Boreas.cam0 String.length self) 2 = Some c /\
             Boreas.get_camera String.length self 2 = inr c) /\
  Boreas.get_lidar String.length self (-1) = Boreas.get_lidar String.length self 2 /\
  Boreas.get_radar String.length self 1 = inl Boreas.IndexError.
Proof.
  intros self.
  split; [|split].
  - apply (proj1 (proj1 (@get_frame_by_index Boreas.seq_record Boreas.seq_record
                           nat nat nat String.length String.length String.length
                           self 2%Z))).
    simpl; lia.
  - apply (proj1 (proj2 (proj1 (proj2 (@get_frame_by_index Boreas.seq_record
                           Boreas.seq_record nat nat nat
                           String.length String.length String.length self (-1)%Z))))).
    simpl; lia.
  - apply (proj2 (proj2 (proj2 (proj2 (@get_frame_by_index Boreas.seq_record
                           Boreas.seq_record nat nat nat
                           String.length String.length String.length self 1%Z))))).
    simpl; lia.
Defined.
